(** * Flexiv Omni-Teleop example programs: axis-lock scripts and periodic tasks

    A shallow embedding of the three example programs

      - [basic_free_space_motion_teleop]  (testAixsLock)
      - [basic_teleop]                    (periodicTeleopTask, periodicConsoleTask, main)
      - [basic_cart_teleop]               (dual-arm periodicTeleopTask, main)

    The closed-source SDK (Robot2RobotTeleop, Scheduler) is an interface
    ([TeleopSDK]) over an abstract world; every call into it may return or
    throw a [std::exception].  The programs are written in a small
    state-and-exception monad that records every observable action in a
    trace. *)

From Stdlib Require Import ZArith List String Ascii Bool Lia.
Import ListNotations.

Local Open Scope string_scope.
Local Open Scope list_scope.
Local Open Scope Z_scope.

(* ===================================================================== *)
(** ** TeleopDefs.hpp: the axis-lock command                              *)
(* ===================================================================== *)

Module TeleopDefs.

(** [flexiv::omni::teleop::CoordType]. *)
Inductive CoordType : Type := CD_WORLD | CD_TCP.

(** Modelled from the spec: the element type of the two lock lists is
    declared in TeleopDefs.hpp, which the examples only include.  The
    examples brace-initialise the lists with three booleans and index
    them with the constants 0, 1 and 2; the data model fixes their length
    at three. *)
Record LockList : Type := locks3 { lock0 : bool; lock1 : bool; lock2 : bool }.

(** [l[i]] for the constant indices the examples use. *)
Definition at_ (l : LockList) (i : nat) : bool :=
  match i with
  | O => lock0 l
  | S O => lock1 l
  | S (S O) => lock2 l
  | _ => false
  end.

(** [l[i] = b]. *)
Definition set_at (l : LockList) (i : nat) (b : bool) : LockList :=
  match i with
  | O => locks3 b (lock1 l) (lock2 l)
  | S O => locks3 (lock0 l) b (lock2 l)
  | S (S O) => locks3 (lock0 l) (lock1 l) b
  | _ => l
  end.

(** [flexiv::omni::teleop::AxisLockDefs], with the three members the
    examples read and write. *)
Record AxisLockDefs : Type := mkAxisLockDefs {
  coord : CoordType;
  ori_axis_lock_list_ : LockList;
  trans_axis_lock_list_ : LockList
}.

Definition set_coord (c : AxisLockDefs) (v : CoordType) : AxisLockDefs :=
  mkAxisLockDefs v (ori_axis_lock_list_ c) (trans_axis_lock_list_ c).

Definition set_ori (c : AxisLockDefs) (v : LockList) : AxisLockDefs :=
  mkAxisLockDefs (coord c) v (trans_axis_lock_list_ c).

Definition set_trans (c : AxisLockDefs) (v : LockList) : AxisLockDefs :=
  mkAxisLockDefs (coord c) (ori_axis_lock_list_ c) v.

(** The six lock booleans in the order X, Y, Z, Rx, Ry, Rz. *)
Definition lock_bits (c : AxisLockDefs) : list bool :=
  let t := trans_axis_lock_list_ c in
  let o := ori_axis_lock_list_ c in
  [lock0 t; lock1 t; lock2 t; lock0 o; lock1 o; lock2 o].

Definition count_bits (v : bool) (l : list bool) : nat :=
  List.length (List.filter (Bool.eqb v) l).

Definition unlocked_count (c : AxisLockDefs) : nat := count_bits false (lock_bits c).
Definition locked_count (c : AxisLockDefs) : nat := count_bits true (lock_bits c).

(** Number of positions at which two lock states differ. *)
Fixpoint diff_count (l1 l2 : list bool) : nat :=
  match l1, l2 with
  | b1 :: r1, b2 :: r2 =>
      ((if Bool.eqb b1 b2 then 0 else 1) + diff_count r1 r2)%nat
  | _, _ => O
  end.

Definition CoordType_eqb (a b : CoordType) : bool :=
  match a, b with
  | CD_WORLD, CD_WORLD | CD_TCP, CD_TCP => true
  | _, _ => false
  end.

End TeleopDefs.
Import TeleopDefs.

(* ===================================================================== *)
(** ** Effects: the SDK, the stop flag and the trace                      *)
(* ===================================================================== *)

(** A [Robot2RobotTeleop&]: sessions are told apart by object identity. *)
Definition Robot2RobotTeleop : Type := nat.

(** A call either returns or throws an exception derived from
    [std::exception]; [what] is the text of [e.what()]. *)
Inductive Outcome (A : Type) : Type :=
| Returns (a : A)
| Throws (what : string).
Arguments Returns {A} a.
Arguments Throws {A} what.

(** The member functions of [Robot2RobotTeleop] the examples call. *)
Inductive Method : Type :=
| m_enable
| m_init
| m_setLocalNullSpacePosture
| m_setRemoteNullSpacePosture
| m_setRemoteMaxWrench
| m_isOperational
| m_run
| m_getLocalAxisLockState
| m_setLocalAxisLockCmd (cmd : AxisLockDefs).

(** The tasks handed to [Scheduler::AddTask], named by their task name. *)
Inductive Task : Type :=
| HP_periodic_teleop
| LP_nonPeriodic_console.

Inductive LogLevel : Type := info | warn | error.

(** Everything a program does that can be observed from outside. *)
Inductive Event : Type :=
| EvConstruct (localSN remoteSN licCfgPath : string)
| EvCall (teleop : Robot2RobotTeleop) (m : Method)
| EvScheduler
| EvAddTask (t : Task) (interval priority : Z)
| EvStart
| EvSleep (secs : Z)
| EvCout (s : string)
| EvCerr (s : string)
| EvLog (lvl : LogLevel) (s : string)
| EvLogAxis (axis : string) (c : CoordType) (locked : bool)
| EvMaxPriority
| EvMinPriority.

(** The SDK as the examples see it.  [W] is the state of everything behind
    the library boundary (robots, network, licence). *)
Class TeleopSDK (W : Type) : Type := {
  sdk_construct : string -> string -> string -> W -> Outcome Robot2RobotTeleop * W;
  sdk_enable : Robot2RobotTeleop -> W -> Outcome unit * W;
  sdk_init : Robot2RobotTeleop -> W -> Outcome unit * W;
  sdk_setLocalNullSpacePosture : Robot2RobotTeleop -> W -> Outcome unit * W;
  sdk_setRemoteNullSpacePosture : Robot2RobotTeleop -> W -> Outcome unit * W;
  sdk_setRemoteMaxWrench : Robot2RobotTeleop -> W -> Outcome unit * W;
  sdk_isOperational : Robot2RobotTeleop -> W -> Outcome bool * W;
  sdk_run : Robot2RobotTeleop -> W -> Outcome unit * W;
  sdk_getLocalAxisLockState : Robot2RobotTeleop -> W -> Outcome AxisLockDefs * W;
  sdk_setLocalAxisLockCmd : Robot2RobotTeleop -> AxisLockDefs -> W -> Outcome unit * W;
  sdk_Scheduler : W -> Outcome unit * W;
  sdk_max_priority : W -> Outcome Z * W;
  sdk_min_priority : W -> Outcome Z * W;
  sdk_AddTask : Task -> Z -> Z -> W -> Outcome unit * W;
  sdk_Start : W -> Outcome unit * W
}.

(** Program state: the world, the file-scope [g_stop_sched] and the trace
    (oldest event first). *)
Record Mach (W : Type) : Type := mkMach {
  world : W;
  g_stop_sched : bool;
  trace : list Event
}.
Arguments mkMach {W} _ _ _.
Arguments world {W} _.
Arguments g_stop_sched {W} _.
Arguments trace {W} _.

Definition M (W A : Type) : Type := Mach W -> Outcome A * Mach W.

Section Monad.
Context {W : Type}.

Definition ret {A} (a : A) : M W A := fun s => (Returns a, s).

Definition bind {A B} (c : M W A) (k : A -> M W B) : M W B :=
  fun s =>
    match c s with
    | (Returns a, s') => k a s'
    | (Throws what, s') => (Throws what, s')
    end.

Definition throw {A} (what : string) : M W A := fun s => (Throws what, s).

(** [try { body } catch (const std::exception& e) { handler(e.what()) }]. *)
Definition try_catch {A} (body : M W A) (handler : string -> M W A) : M W A :=
  fun s =>
    match body s with
    | (Returns a, s') => (Returns a, s')
    | (Throws what, s') => handler what s'
    end.

Definition emit (e : Event) : M W unit :=
  fun s => (Returns tt, mkMach (world s) (g_stop_sched s) (trace s ++ [e])).

Definition read_g_stop_sched : M W bool :=
  fun s => (Returns (g_stop_sched s), s).

Definition write_g_stop_sched (b : bool) : M W unit :=
  fun s => (Returns tt, mkMach (world s) b (trace s)).

(** Run an SDK operation on the world component. *)
Definition sdk {A} (op : W -> Outcome A * W) : M W A :=
  fun s =>
    let (r, w') := op (world s) in
    (r, mkMach w' (g_stop_sched s) (trace s)).

End Monad.

Declare Scope teleop_scope.
Delimit Scope teleop_scope with teleop.
Notation "x <- c ;; k" := (bind c (fun x => k))
  (at level 61, c at next level, right associativity) : teleop_scope.
Notation "c ;; k" := (bind c (fun _ => k))
  (at level 61, right associativity) : teleop_scope.
Local Open Scope teleop_scope.

(* ===================================================================== *)
(** ** The programs                                                       *)
(* ===================================================================== *)

(** *** Calls into the SDK: each one is recorded, then performed. *)

Section Calls.
Context {W : Type} {SDK : TeleopSDK W}.

Definition construct (localSN remoteSN licCfgPath : string) : M W Robot2RobotTeleop :=
  emit (EvConstruct localSN remoteSN licCfgPath) ;;
  sdk (sdk_construct localSN remoteSN licCfgPath).

Definition enable (teleop : Robot2RobotTeleop) : M W unit :=
  emit (EvCall teleop m_enable) ;; sdk (sdk_enable teleop).

Definition init (teleop : Robot2RobotTeleop) : M W unit :=
  emit (EvCall teleop m_init) ;; sdk (sdk_init teleop).

Definition setLocalNullSpacePosture (teleop : Robot2RobotTeleop) : M W unit :=
  emit (EvCall teleop m_setLocalNullSpacePosture) ;;
  sdk (sdk_setLocalNullSpacePosture teleop).

Definition setRemoteNullSpacePosture (teleop : Robot2RobotTeleop) : M W unit :=
  emit (EvCall teleop m_setRemoteNullSpacePosture) ;;
  sdk (sdk_setRemoteNullSpacePosture teleop).

Definition setRemoteMaxWrench (teleop : Robot2RobotTeleop) : M W unit :=
  emit (EvCall teleop m_setRemoteMaxWrench) ;; sdk (sdk_setRemoteMaxWrench teleop).

Definition isOperational (teleop : Robot2RobotTeleop) : M W bool :=
  emit (EvCall teleop m_isOperational) ;; sdk (sdk_isOperational teleop).

Definition run (teleop : Robot2RobotTeleop) : M W unit :=
  emit (EvCall teleop m_run) ;; sdk (sdk_run teleop).

Definition getLocalAxisLockState (teleop : Robot2RobotTeleop) : M W AxisLockDefs :=
  emit (EvCall teleop m_getLocalAxisLockState) ;;
  sdk (sdk_getLocalAxisLockState teleop).

Definition setLocalAxisLockCmd (teleop : Robot2RobotTeleop) (cmd : AxisLockDefs)
  : M W unit :=
  emit (EvCall teleop (m_setLocalAxisLockCmd cmd)) ;;
  sdk (sdk_setLocalAxisLockCmd teleop cmd).

Definition Scheduler : M W unit := emit EvScheduler ;; sdk sdk_Scheduler.

(** [scheduler.max_priority()] and [scheduler.min_priority()]. *)
Definition max_priority : M W Z := emit EvMaxPriority ;; sdk sdk_max_priority.
Definition min_priority : M W Z := emit EvMinPriority ;; sdk sdk_min_priority.

Definition AddTask (t : Task) (interval priority : Z) : M W unit :=
  emit (EvAddTask t interval priority) ;; sdk (sdk_AddTask t interval priority).

Definition Start : M W unit := emit EvStart ;; sdk sdk_Start.

Definition sleep_for (secs : Z) : M W unit := emit (EvSleep secs).
Definition cout (s : string) : M W unit := emit (EvCout s).
Definition cerr (s : string) : M W unit := emit (EvCerr s).
Definition log (lvl : LogLevel) (s : string) : M W unit := emit (EvLog lvl s).

Fixpoint log_lines (lvl : LogLevel) (l : list string) : M W unit :=
  match l with
  | [] => ret tt
  | s :: rest => log lvl s ;; log_lines lvl rest
  end.

Fixpoint cout_lines (l : list string) : M W unit :=
  match l with
  | [] => ret tt
  | s :: rest => cout s ;; cout_lines rest
  end.

(** [s.empty()]. *)
Definition empty (s : string) : bool :=
  match s with
  | EmptyString => true
  | String _ _ => false
  end.

(** [while (!g_stop_sched) sleep_for(seconds(1));] observed for at most
    [polls] tests of the flag: [true] when the loop was left. *)
Fixpoint wait_for_stop (polls : nat) : M W bool :=
  match polls with
  | O => ret false
  | S n =>
      stop <- read_g_stop_sched ;;
      if (stop : bool) then ret true
      else sleep_for 1 ;; wait_for_stop n
  end.

End Calls.

(** What [main] has done when the model stops following it. *)
Inductive MainResult : Type :=
| Exited (status : Z)
| Waiting.

(** One result of [getopt_long_only]: the value returned and [optarg]. *)
Definition GetoptResult : Type := (ascii * string)%type.

(* --------------------------------------------------------------------- *)
(** *** basic_free_space_motion_teleop.cpp                                *)
(* --------------------------------------------------------------------- *)

Module BasicFreeSpaceMotionTeleop.
Section Program.
Context {W : Type} {SDK : TeleopSDK W}.

(** [std::chrono::duration_cast<std::chrono::seconds>]: integer division
    of a tick count, truncating toward zero.  [ticks_per_second] is the
    resolution of [system_clock]. *)
Definition duration_cast_seconds (ticks_per_second d : Z) : Z :=
  Z.quot d ticks_per_second.

(** The body of [testAixsLock] once [elapsedTimeSec] is known.  [AxisCmd]
    is passed by reference; the value it holds on return is the result. *)
Definition testAixsLock_at (teleop : Robot2RobotTeleop) (AxisCmd : AxisLockDefs)
    (elapsedTimeSec : Z) : M W AxisLockDefs :=
  let assign_and_push (c : CoordType) (ori trans : LockList) : M W AxisLockDefs :=
    let AxisCmd := set_coord AxisCmd c in
    let AxisCmd := set_ori AxisCmd ori in
    let AxisCmd := set_trans AxisCmd trans in
    setLocalAxisLockCmd teleop AxisCmd ;; ret AxisCmd in
  if elapsedTimeSec <=? 5 then
    (* Only floating X in TCP frame in first 5 seconds *)
    assign_and_push CD_TCP (locks3 true true true) (locks3 false true true)
  else if (5 <? elapsedTimeSec) && (elapsedTimeSec <=? 10) then
    (* Only floating Y in TCP frame *)
    assign_and_push CD_TCP (locks3 true true true) (locks3 true false true)
  else if (10 <? elapsedTimeSec) && (elapsedTimeSec <=? 15) then
    (* Only floating Z in TCP frame *)
    assign_and_push CD_TCP (locks3 true true true) (locks3 true true false)
  else if (15 <? elapsedTimeSec) && (elapsedTimeSec <=? 20) then
    (* Only floating Rx in TCP frame *)
    assign_and_push CD_TCP (locks3 false true true) (locks3 true true true)
  else if (20 <? elapsedTimeSec) && (elapsedTimeSec <=? 25) then
    (* Only floating Ry in TCP frame *)
    assign_and_push CD_TCP (locks3 true false true) (locks3 true true true)
  else if (25 <? elapsedTimeSec) && (elapsedTimeSec <=? 30) then
    (* Only floating Rz in TCP frame *)
    assign_and_push CD_TCP (locks3 true true false) (locks3 true true true)
  else if (30 <? elapsedTimeSec) && (elapsedTimeSec <=? 35) then
    (* Unlock all axes *)
    assign_and_push CD_TCP (locks3 false false false) (locks3 false false false)
  else if (35 <? elapsedTimeSec) && (elapsedTimeSec <=? 40) then
    (* Only floating X in World frame *)
    assign_and_push CD_WORLD (locks3 true true true) (locks3 false true true)
  else if (40 <? elapsedTimeSec) && (elapsedTimeSec <=? 45) then
    (* Only floating Y in World frame *)
    assign_and_push CD_WORLD (locks3 true true true) (locks3 true false true)
  else if (45 <? elapsedTimeSec) && (elapsedTimeSec <=? 50) then
    (* Only floating Z in World frame *)
    assign_and_push CD_WORLD (locks3 true true true) (locks3 true true false)
  else if (50 <? elapsedTimeSec) && (elapsedTimeSec <=? 55) then
    (* Only floating Rx in World frame *)
    assign_and_push CD_WORLD (locks3 false true true) (locks3 true true true)
  else if (55 <? elapsedTimeSec) && (elapsedTimeSec <=? 60) then
    (* Only floating Ry in World frame *)
    assign_and_push CD_WORLD (locks3 true false true) (locks3 true true true)
  else if (60 <? elapsedTimeSec) && (elapsedTimeSec <=? 65) then
    (* Only floating Rz in World frame *)
    assign_and_push CD_WORLD (locks3 true true false) (locks3 true true true)
  else
    (* Unlock all axes *)
    assign_and_push CD_WORLD (locks3 false false false) (locks3 false false false).

(** The value a 64-bit signed tick count holds after an operation whose
    exact result is [z]: [z] itself when it fits, wrapped around
    otherwise. *)
Definition wrap64 (z : Z) : Z := (z + 2 ^ 63) mod 2 ^ 64 - 2 ^ 63.

(** [testAixsLock(teleop, AxisCmd, startTimeSec)]; [currentTimeSec] is
    the value [system_clock::now()] returns.  Both time points are 64-bit
    signed counts of clock ticks, and so is their difference. *)
Definition testAixsLock (ticks_per_second : Z) (teleop : Robot2RobotTeleop)
    (AxisCmd : AxisLockDefs) (startTimeSec currentTimeSec : Z) : M W AxisLockDefs :=
  let elapsedTimeSec :=
    duration_cast_seconds ticks_per_second
      (wrap64 (currentTimeSec - startTimeSec)) in
  testAixsLock_at teleop AxisCmd elapsedTimeSec.

(** [printHelp()] of this program goes through the logger. *)
Definition printHelp : M W unit :=
  log error "Invalid program arguments" ;;
  log info "     -l     [necessary] serial number of local robot." ;;
  log info "     -r     [necessary] serial number of remote robot." ;;
  log info "     -c     [necessary] license config file path." ;;
  log info "Usage: ./test_flexiv_omni_teleop -l Rizon4s-123456 -r Rizon4s-654321 -c <path/to/licensCfg.json>".

Record Args : Type := mkArgs {
  remoteSN : string;
  localSN : string;
  licCfgPath : string
}.

(** The option loop: each recognised option is stored and echoed to the
    log; [k] is the rest of [main]. *)
Fixpoint getopt_loop (opts : list GetoptResult) (a : Args)
    (k : Args -> M W MainResult) : M W MainResult :=
  match opts with
  | [] => k a
  | (opt, optarg) :: rest =>
      match opt with
      | "r"%char =>
          log info ("Remote SN: " ++ optarg) ;;
          getopt_loop rest (mkArgs optarg (localSN a) (licCfgPath a)) k
      | "l"%char =>
          log info ("Local SN: " ++ optarg) ;;
          getopt_loop rest (mkArgs (remoteSN a) optarg (licCfgPath a)) k
      | "c"%char =>
          log info ("License config file: " ++ optarg) ;;
          getopt_loop rest (mkArgs (remoteSN a) (localSN a) optarg) k
      | _ => printHelp ;; ret (Exited 1)
      end
  end.

(** The body of the [try] block; [teleop.run(isBlocking)] is called with
    [isBlocking = true] and is recorded as the [run] call. *)
Definition setup_and_run (a : Args) : M W unit :=
  teleop <- construct (localSN a) (remoteSN a) (licCfgPath a) ;;
  (* Enable teleop robots *)
  enable teleop ;;
  (* Init teleop robots *)
  init teleop ;;
  (* Set preferred joint position to a better configuration *)
  setLocalNullSpacePosture teleop ;;
  setRemoteNullSpacePosture teleop ;;
  (* Wait for elbow posture ready *)
  sleep_for 3 ;;
  (* Run teleop *)
  log info "Omni-Teleop will run in background ... " ;;
  run teleop.

(** [main] from the test of the three strings on. *)
Definition after_getopt (a : Args) : M W MainResult :=
  if empty (localSN a) || empty (remoteSN a) || empty (licCfgPath a) then
    printHelp ;; ret (Exited 1)
  else
    try_catch
      (setup_and_run a ;; ret (Exited 0))
      (fun what => log error what ;; ret (Exited 1)).

Definition main (opts : list GetoptResult) : M W MainResult :=
  getopt_loop opts (mkArgs "" "" "") after_getopt.

End Program.
End BasicFreeSpaceMotionTeleop.

(* --------------------------------------------------------------------- *)
(** *** basic_teleop.cpp                                                  *)
(* --------------------------------------------------------------------- *)

Definition fault_message : string :=
  "periodicTeleopTask: Fault occurred during teleoperation, exiting ...".

(** [printHelp()], the same text in basic_teleop.cpp and
    basic_cart_teleop.cpp. *)
Definition usage : list string :=
  [ "Invalid program arguments";
    "     -l     [necessary] serial number of local robot.";
    "     -r     [necessary] serial number of remote robot.";
    "     -c     [necessary] license config file path.";
    "Usage: ./basic_teleop -l Rizon4s-123456 -r Rizon4s-654321 -c <path/to/licensCfg.json>" ].

Module BasicTeleop.
Section Program.
Context {W : Type} {SDK : TeleopSDK W}.

Definition printHelp : M W unit := cout_lines usage.

(** [periodicTeleopTask(teleop)]. *)
Definition periodicTeleopTask (teleop : Robot2RobotTeleop) : M W unit :=
  try_catch
    ((* Monitor fault on the teleop robots *)
     operational <- isOperational teleop ;;
     (if negb operational then throw fault_message else ret tt) ;;
     (* Run teleop *)
     run teleop)
    (fun what =>
       cerr (what ++ String "010" "") ;;
       write_g_stop_sched true).

(** [n] successive invocations of the callback bound by
    [std::bind(&periodicTeleopTask, std::ref(teleop))]. *)
Fixpoint ticks (n : nat) (teleop : Robot2RobotTeleop) : M W unit :=
  match n with
  | O => ret tt
  | S n' => periodicTeleopTask teleop ;; ticks n' teleop
  end.

(** [userInput[0]]: the first character, or the terminating NUL of an
    empty line. *)
Definition first_char (userInput : string) : ascii :=
  match userInput with
  | EmptyString => Ascii.zero
  | String c _ => c
  end.

Definition help_text : list string :=
  [ ">>> Simple command line GUI for teleop robot axis lock <<<";
    "- x: lock/unlock translational motion along X axis in World frame.";
    "- y: lock/unlock translational motion along Y axis in World frame.";
    "- z: lock/unlock translational motion along Z axis in World frame.";
    "- q: lock/unlock rotational motion along X axis in World frame.";
    "- w: lock/unlock rotational motion along Y axis in World frame.";
    "- e: lock/unlock rotational motion along Z axis in World frame.";
    "- X: lock/unlock translational motion along X axis in TCP frame.";
    "- Y: lock/unlock translational motion along Y axis in TCP frame.";
    "- Z: lock/unlock translational motion along Z axis in TCP frame.";
    "- Q: lock/unlock rotational motion along X axis in TCP frame.";
    "- W: lock/unlock rotational motion along Y axis in TCP frame.";
    "- E: lock/unlock rotational motion along Z axis in TCP frame.";
    "please input command >> " ].

Definition invalid_command : string :=
  "Invalid command, please enter 'm' for help " ++ String "010" "".

(** [cmd.trans_axis_lock_list_[i] = !cmd.trans_axis_lock_list_[i];
     cmd.coord = c;] *)
Definition toggle_trans (cmd : AxisLockDefs) (i : nat) (c : CoordType) : AxisLockDefs :=
  let cmd :=
    set_trans cmd (set_at (trans_axis_lock_list_ cmd) i
                          (negb (at_ (trans_axis_lock_list_ cmd) i))) in
  set_coord cmd c.

(** [cmd.ori_axis_lock_list_[i] = !cmd.ori_axis_lock_list_[i];
     cmd.coord = c;] *)
Definition toggle_ori (cmd : AxisLockDefs) (i : nat) (c : CoordType) : AxisLockDefs :=
  let cmd :=
    set_ori cmd (set_at (ori_axis_lock_list_ cmd) i
                        (negb (at_ (ori_axis_lock_list_ cmd) i))) in
  set_coord cmd c.

(** The [switch (userInput[0])] of [periodicConsoleTask]. *)
Definition console_switch (key : ascii) (cmd : AxisLockDefs) : M W AxisLockDefs :=
  match key with
  | "m"%char => log_lines info help_text ;; ret cmd
  | "x"%char => ret (toggle_trans cmd 0 CD_WORLD)
  | "y"%char => ret (toggle_trans cmd 1 CD_WORLD)
  | "z"%char => ret (toggle_trans cmd 2 CD_WORLD)
  | "q"%char => ret (toggle_ori cmd 0 CD_WORLD)
  | "w"%char => ret (toggle_ori cmd 1 CD_WORLD)
  | "e"%char => ret (toggle_ori cmd 2 CD_WORLD)
  | "X"%char => ret (toggle_trans cmd 0 CD_TCP)
  | "Y"%char => ret (toggle_trans cmd 1 CD_TCP)
  | "Z"%char => ret (toggle_trans cmd 2 CD_TCP)
  | "Q"%char => ret (toggle_ori cmd 0 CD_TCP)
  | "W"%char => ret (toggle_ori cmd 1 CD_TCP)
  | "E"%char => ret (toggle_ori cmd 2 CD_TCP)
  | _ => log warn invalid_command ;; ret cmd
  end.

(** The six status lines printed after the push. *)
Definition log_status (cmd : AxisLockDefs) : M W unit :=
  emit (EvLogAxis "X" (coord cmd) (at_ (trans_axis_lock_list_ cmd) 0)) ;;
  emit (EvLogAxis "Y" (coord cmd) (at_ (trans_axis_lock_list_ cmd) 1)) ;;
  emit (EvLogAxis "Z" (coord cmd) (at_ (trans_axis_lock_list_ cmd) 2)) ;;
  emit (EvLogAxis "Rx" (coord cmd) (at_ (ori_axis_lock_list_ cmd) 0)) ;;
  emit (EvLogAxis "Ry" (coord cmd) (at_ (ori_axis_lock_list_ cmd) 1)) ;;
  emit (EvLogAxis "Rz" (coord cmd) (at_ (ori_axis_lock_list_ cmd) 2)).

(** One pass through the body of the [while] loop, for the line
    [userInput] that [std::getline] delivered. *)
Definition console_iteration (teleop : Robot2RobotTeleop) (cmd : AxisLockDefs)
    (userInput : string) : M W AxisLockDefs :=
  cmd <- console_switch (first_char userInput) cmd ;;
  setLocalAxisLockCmd teleop cmd ;;
  log_status cmd ;;
  ret cmd.

(** [while (!g_stop_sched) { ... }] over the lines [std::getline] delivers.
    The source loop has no exit but the stop flag; [cin] is the input the
    model follows, and when it is used up the model stops following the
    task and hands back the command it holds. *)
Fixpoint console_loop (teleop : Robot2RobotTeleop) (cmd : AxisLockDefs)
    (cin : list string) : M W AxisLockDefs :=
  stop <- read_g_stop_sched ;;
  if (stop : bool) then ret cmd
  else
    match cin with
    | [] => ret cmd
    | userInput :: rest =>
        cmd <- console_iteration teleop cmd userInput ;;
        console_loop teleop cmd rest
    end.

(** [periodicConsoleTask(teleop)]. *)
Definition periodicConsoleTask (teleop : Robot2RobotTeleop) (cin : list string)
  : M W AxisLockDefs :=
  cmd <- getLocalAxisLockState teleop ;;
  console_loop teleop cmd cin.

(** The three strings [main] fills from the command line. *)
Record Args : Type := mkArgs {
  remoteSN : string;
  localSN : string;
  licCfgPath : string
}.

(** The [while ((opt = getopt_long_only(...)) != -1) switch (opt)] loop
    over the results [getopt_long_only] delivers; [k] is the rest of
    [main]. *)
Fixpoint getopt_loop (opts : list GetoptResult) (a : Args)
    (k : Args -> M W MainResult) : M W MainResult :=
  match opts with
  | [] => k a
  | (opt, optarg) :: rest =>
      match opt with
      | "r"%char => getopt_loop rest (mkArgs optarg (localSN a) (licCfgPath a)) k
      | "l"%char => getopt_loop rest (mkArgs (remoteSN a) optarg (licCfgPath a)) k
      | "c"%char => getopt_loop rest (mkArgs (remoteSN a) (localSN a) optarg) k
      | _ => printHelp ;; ret (Exited 1)
      end
  end.

Definition banner (a : Args) : list string :=
  [ "Force feedback teleoperation example";
    "Copyright (C) 2016-2024 Flexiv";
    "All Rights Reserved.";
    "";
    ("Remote SN: " ++ remoteSN a)%string;
    ("Local SN: " ++ localSN a)%string;
    ("License config file: " ++ licCfgPath a)%string ].

(** The body of the inner [try] block. *)
Definition setup_and_start (a : Args) (polls : nat) : M W MainResult :=
  teleop <- construct (localSN a) (remoteSN a) (licCfgPath a) ;;
  (* Enable teleop robots *)
  enable teleop ;;
  (* Init teleop robots *)
  init teleop ;;
  (* Set preferred joint position to a better configuration *)
  setLocalNullSpacePosture teleop ;;
  setRemoteNullSpacePosture teleop ;;
  (* Set max remote contact wrench *)
  setRemoteMaxWrench teleop ;;
  (* Create real-time scheduler to run periodic tasks *)
  Scheduler ;;
  (* Wait for elbow posture ready *)
  sleep_for 3 ;;
  log info "Omni-Teleop will run in background ... " ;;
  (* Add periodic task with 1ms interval and highest applicable priority *)
  priority <- max_priority ;;
  AddTask HP_periodic_teleop 1 priority ;;
  priority <- min_priority ;;
  AddTask LP_nonPeriodic_console 1000 priority ;;
  Start ;;
  sleep_for 1 ;;
  (* Block until signal received *)
  left <- wait_for_stop polls ;;
  ret (if (left : bool) then Exited 0 else Waiting).

(** [main(argc, argv)]: [opts] are the results of [getopt_long_only] on
    the command line, [polls] bounds how long the final wait loop is
    followed.  The function is the thread of [main] alone: the callbacks
    the scheduler runs once started are [ticks] and [periodicConsoleTask],
    and within [main] the stop flag keeps the value it has. *)
(** [main] from the test of the three strings on. *)
Definition after_getopt (polls : nat) (a : Args) : M W MainResult :=
  if empty (localSN a) || empty (remoteSN a) || empty (licCfgPath a) then
    printHelp ;; ret (Exited 1)
  else
    cout_lines (banner a) ;;
    try_catch
      (setup_and_start a polls)
      (fun what => log error what ;; ret (Exited 1)).

Definition main (opts : list GetoptResult) (polls : nat) : M W MainResult :=
  getopt_loop opts (mkArgs "" "" "") (after_getopt polls).

End Program.
End BasicTeleop.

(* --------------------------------------------------------------------- *)
(** *** basic_cart_teleop.cpp                                             *)
(* --------------------------------------------------------------------- *)

Module BasicCartTeleop.
Section Program.
Context {W : Type} {SDK : TeleopSDK W}.

Definition printHelp : M W unit := cout_lines usage.

(** [periodicTeleopTask(teleop1, teleop2)].  The condition is
    [!teleop1.isOperational() || !teleop1.isOperational()], with the
    short-circuit evaluation of [||]. *)
Definition periodicTeleopTask (teleop1 teleop2 : Robot2RobotTeleop) : M W unit :=
  try_catch
    ((* Monitor fault on the teleop robots *)
     operational <- isOperational teleop1 ;;
     faulted <- (if negb operational then ret true
                 else operational' <- isOperational teleop1 ;;
                      ret (negb operational')) ;;
     (if (faulted : bool) then throw fault_message else ret tt) ;;
     (* Run teleop *)
     run teleop1)
    (fun what =>
       cerr (what ++ String "010" "") ;;
       write_g_stop_sched true).

(** [n] successive invocations of the callback on the two sessions. *)
Fixpoint ticks (n : nat) (teleop1 teleop2 : Robot2RobotTeleop) : M W unit :=
  match n with
  | O => ret tt
  | S n' => periodicTeleopTask teleop1 teleop2 ;; ticks n' teleop1 teleop2
  end.

Record Args : Type := mkArgs {
  remoteSN_left : string;
  localSN_left : string;
  remoteSN_right : string;
  localSN_right : string;
  licCfgPath : string
}.

Fixpoint getopt_loop (opts : list GetoptResult) (a : Args)
    (k : Args -> M W MainResult) : M W MainResult :=
  match opts with
  | [] => k a
  | (opt, optarg) :: rest =>
      match opt with
      | "r"%char =>
          getopt_loop rest
            (mkArgs optarg (localSN_left a) (remoteSN_right a) (localSN_right a)
                    (licCfgPath a)) k
      | "l"%char =>
          getopt_loop rest
            (mkArgs (remoteSN_left a) optarg (remoteSN_right a) (localSN_right a)
                    (licCfgPath a)) k
      | "R"%char =>
          getopt_loop rest
            (mkArgs (remoteSN_left a) (localSN_left a) optarg (localSN_right a)
                    (licCfgPath a)) k
      | "L"%char =>
          getopt_loop rest
            (mkArgs (remoteSN_left a) (localSN_left a) (remoteSN_right a) optarg
                    (licCfgPath a)) k
      | "c"%char =>
          getopt_loop rest
            (mkArgs (remoteSN_left a) (localSN_left a) (remoteSN_right a)
                    (localSN_right a) optarg) k
      | _ => printHelp ;; ret (Exited 1)
      end
  end.

Definition banner (a : Args) : list string :=
  [ "Flexiv Omni-Teleop teleoperation example";
    "Copyright (C) 2016-2024 Flexiv";
    "All Rights Reserved.";
    "";
    ("left Remote SN: " ++ remoteSN_left a)%string;
    ("left Local SN: " ++ localSN_left a)%string;
    ("right Remote SN: " ++ remoteSN_right a)%string;
    ("right Local SN: " ++ localSN_right a)%string;
    ("License config file: " ++ licCfgPath a)%string ].

(** The body of the [try] block. *)
Definition setup_and_start (a : Args) (polls : nat) : M W MainResult :=
  teleop_left <- construct (localSN_left a) (remoteSN_left a) (licCfgPath a) ;;
  teleop_right <- construct (localSN_right a) (remoteSN_right a) (licCfgPath a) ;;
  (* Enable teleop robots *)
  enable teleop_left ;;
  enable teleop_right ;;
  (* Init teleop robots *)
  init teleop_left ;;
  init teleop_right ;;
  (* Set preferred joint position to a better configuration *)
  setLocalNullSpacePosture teleop_left ;;
  setRemoteNullSpacePosture teleop_left ;;
  setLocalNullSpacePosture teleop_right ;;
  setRemoteNullSpacePosture teleop_right ;;
  (* Set max remote contact wrench *)
  setRemoteMaxWrench teleop_left ;;
  setRemoteMaxWrench teleop_right ;;
  (* Create real-time scheduler to run periodic tasks *)
  Scheduler ;;
  (* Wait for elbow posture ready *)
  sleep_for 3 ;;
  (* Add periodic task with 1ms interval and highest applicable priority;
     the [std::bind] expression of this snapshot is unbalanced, the task
     registered is the dual-arm callback on both sessions *)
  priority <- max_priority ;;
  AddTask HP_periodic_teleop 1 priority ;;
  Start ;;
  cout "Flexiv Omni-Teleop started ... " ;;
  sleep_for 1 ;;
  (* Block until signal received *)
  left <- wait_for_stop polls ;;
  ret (if (left : bool) then Exited 0 else Waiting).

(** [main] from the test of the five strings on. *)
Definition after_getopt (polls : nat) (a : Args) : M W MainResult :=
  if empty (localSN_left a) || empty (remoteSN_left a)
     || empty (localSN_right a) || empty (remoteSN_right a)
     || empty (licCfgPath a) then
    printHelp ;; ret (Exited 1)
  else
    cout_lines (banner a) ;;
    try_catch
      (setup_and_start a polls)
      (fun what => cerr what ;; ret (Exited 1)).

Definition main (opts : list GetoptResult) (polls : nat) : M W MainResult :=
  getopt_loop opts (mkArgs "" "" "" "" "") (after_getopt polls).

End Program.
End BasicCartTeleop.

(* ===================================================================== *)
(** ** The timed script as section 4.1 of the specification words it      *)
(* ===================================================================== *)

Module Spec.

Definition all_locked : LockList := locks3 true true true.
Definition all_free : LockList := locks3 false false false.

(** "Float" translational axis [i] in frame [c]: that axis free, every
    other axis locked. *)
Definition float_trans (c : CoordType) (i : nat) : AxisLockDefs :=
  mkAxisLockDefs c all_locked (set_at all_locked i false).

(** "Float" rotational axis [i] in frame [c]. *)
Definition float_ori (c : CoordType) (i : nat) : AxisLockDefs :=
  mkAxisLockDefs c (set_at all_locked i false) all_locked.

Definition unlock_all (c : CoordType) : AxisLockDefs :=
  mkAxisLockDefs c all_free all_free.

(** The schedule table: the first second of each window and the pattern
    of that window. *)
Definition schedule : list (Z * AxisLockDefs) :=
  [ (0, float_trans CD_TCP 0);
    (5, float_trans CD_TCP 1);
    (10, float_trans CD_TCP 2);
    (15, float_ori CD_TCP 0);
    (20, float_ori CD_TCP 1);
    (25, float_ori CD_TCP 2);
    (30, unlock_all CD_TCP);
    (35, float_trans CD_WORLD 0);
    (40, float_trans CD_WORLD 1);
    (45, float_trans CD_WORLD 2);
    (50, float_ori CD_WORLD 0);
    (55, float_ori CD_WORLD 1);
    (60, float_ori CD_WORLD 2);
    (65, unlock_all CD_WORLD) ].

(** The pattern of the last window that has started at [elapsed]; before
    the first window has started, [dflt]. *)
Fixpoint lookup (rows : list (Z * AxisLockDefs)) (elapsed : Z) (dflt : AxisLockDefs)
  : AxisLockDefs :=
  match rows with
  | [] => dflt
  | (start, pattern) :: rest =>
      if start <=? elapsed then lookup rest elapsed pattern else dflt
  end.

(** [applyTimedScript(elapsed)] with half-open windows [start, start+5):
    a boundary instant belongs to the window that starts there. *)
Definition applyTimedScript (elapsed : Z) : AxisLockDefs :=
  lookup schedule elapsed (float_trans CD_TCP 0).

End Spec.

(* ===================================================================== *)
(** ** Reading a trace                                                    *)
(* ===================================================================== *)

(** The commands pushed with [setLocalAxisLockCmd], oldest first. *)
Fixpoint pushed (tr : list Event) : list (Robot2RobotTeleop * AxisLockDefs) :=
  match tr with
  | [] => []
  | EvCall teleop (m_setLocalAxisLockCmd cmd) :: rest => (teleop, cmd) :: pushed rest
  | _ :: rest => pushed rest
  end.

(** The sessions whose [run()] was called, oldest first. *)
Fixpoint runs (tr : list Event) : list Robot2RobotTeleop :=
  match tr with
  | [] => []
  | EvCall teleop m_run :: rest => teleop :: runs rest
  | _ :: rest => runs rest
  end.

(** The sessions whose [isOperational()] was called, oldest first. *)
Fixpoint polled (tr : list Event) : list Robot2RobotTeleop :=
  match tr with
  | [] => []
  | EvCall teleop m_isOperational :: rest => teleop :: polled rest
  | _ :: rest => polled rest
  end.

(** An event that is a call into the SDK. *)
Definition is_sdk_call (e : Event) : bool :=
  match e with
  | EvConstruct _ _ _ | EvCall _ _ | EvScheduler | EvAddTask _ _ _ | EvStart
  | EvMaxPriority | EvMinPriority => true
  | _ => false
  end.

(** The state [s] with the events [evs] appended to its trace. *)
Definition with_events {W : Type} (s : Mach W) (evs : list Event) : Mach W :=
  mkMach (world s) (g_stop_sched s) (trace s ++ evs).

Definition newline : string := String "010" "".

(** A computation that can only be left by an exception at the moment a
    call into the SDK throws: the last event of the trace is that call. *)
Definition aborts_on_call {W A : Type} (c : M W A) : Prop :=
  forall (s s' : Mach W) (what : string),
    c s = (Throws what, s') ->
    exists pre ev, trace s' = pre ++ [ev] /\ is_sdk_call ev = true.

(** A computation that always returns. *)
Definition never_throws {W A : Type} (c : M W A) : Prop :=
  forall s : Mach W, exists a s', c s = (Returns a, s').

(** The twelve keys that toggle an axis. *)
Definition toggle_keys : list ascii :=
  [ "x"; "y"; "z"; "q"; "w"; "e"; "X"; "Y"; "Z"; "Q"; "W"; "E" ]%char.

(** Lowercase keys address the WORLD frame, uppercase keys the TCP frame. *)
Definition key_frame (key : ascii) : CoordType :=
  if ((65 <=? nat_of_ascii key) && (nat_of_ascii key <=? 90))%nat
  then CD_TCP else CD_WORLD.

(** A required flag is missing when [getopt_long_only] never returns it. *)
Definition missing (flag : ascii) (opts : list GetoptResult) : Prop :=
  forall optarg, ~ In (flag, optarg) opts.

(* ===================================================================== *)
(** ** A scripted SDK for concrete runs                                   *)
(* ===================================================================== *)

Module TestSDK.

Record World : Type := mkWorld {
  next_handle : nat;                       (* handle the next constructor returns *)
  faulted : list Robot2RobotTeleop;        (* sessions that report a fault *)
  run_failures : nat;                      (* calls of run() that still throw *)
  enable_fails : bool;                     (* enable() throws *)
  lock_state : AxisLockDefs                (* the session's axis-lock state *)
}.

Definition is_faulted (w : World) (teleop : Robot2RobotTeleop) : bool :=
  existsb (Nat.eqb teleop) (faulted w).

#[global] Instance sdk : TeleopSDK World := {
  sdk_construct := fun _ _ _ w =>
    (Returns (next_handle w),
     mkWorld (S (next_handle w)) (faulted w) (run_failures w) (enable_fails w)
             (lock_state w));
  sdk_enable := fun _ w =>
    (if enable_fails w then Throws "enable failed" else Returns tt, w);
  sdk_init := fun _ w => (Returns tt, w);
  sdk_setLocalNullSpacePosture := fun _ w => (Returns tt, w);
  sdk_setRemoteNullSpacePosture := fun _ w => (Returns tt, w);
  sdk_setRemoteMaxWrench := fun _ w => (Returns tt, w);
  sdk_isOperational := fun teleop w => (Returns (negb (is_faulted w teleop)), w);
  sdk_run := fun _ w =>
    match run_failures w with
    | O => (Returns tt, w)
    | S n =>
        (Throws "run failed",
         mkWorld (next_handle w) (faulted w) n (enable_fails w) (lock_state w))
    end;
  sdk_getLocalAxisLockState := fun _ w => (Returns (lock_state w), w);
  sdk_setLocalAxisLockCmd := fun _ cmd w =>
    (Returns tt,
     mkWorld (next_handle w) (faulted w) (run_failures w) (enable_fails w) cmd);
  sdk_Scheduler := fun w => (Returns tt, w);
  sdk_max_priority := fun w => (Returns 99, w);
  sdk_min_priority := fun w => (Returns 1, w);
  sdk_AddTask := fun _ _ _ w => (Returns tt, w);
  sdk_Start := fun w => (Returns tt, w)
}.

(** All axes free in the WORLD frame: the state at session start. *)
Definition free_world : AxisLockDefs := Spec.unlock_all CD_WORLD.

(** A healthy world, and the program state at start-up. *)
Definition healthy : World := mkWorld 0 [] 0 false free_world.
Definition boot (w : World) : Mach World := mkMach w false [].

(** Two constructed sessions, left arm 0 and right arm 1, both healthy. *)
Definition two_sessions : World := mkWorld 2 [] 0 false free_world.

(** Two constructed sessions, the right arm reports a fault. *)
Definition right_faulted : World := mkWorld 2 [1%nat] 0 false free_world.

(** One constructed session, healthy. *)
Definition healthy_one : World := mkWorld 1 [] 0 false free_world.

(** One session whose next [run()] throws, the ones after it return. *)
Definition run_fails_once : World := mkWorld 1 [] 1 false free_world.

(** A world in which [enable()] throws. *)
Definition enable_throws : World := mkWorld 0 [] 0 true free_world.

End TestSDK.

(* ===================================================================== *)
(** ** Vocabulary for the further properties                              *)
(* ===================================================================== *)

(** The command the key switch of the console task leaves in [cmd]. *)
Definition key_effect (key : ascii) (cmd : AxisLockDefs) : AxisLockDefs :=
  match key with
  | "x"%char => BasicTeleop.toggle_trans cmd 0 CD_WORLD
  | "y"%char => BasicTeleop.toggle_trans cmd 1 CD_WORLD
  | "z"%char => BasicTeleop.toggle_trans cmd 2 CD_WORLD
  | "q"%char => BasicTeleop.toggle_ori cmd 0 CD_WORLD
  | "w"%char => BasicTeleop.toggle_ori cmd 1 CD_WORLD
  | "e"%char => BasicTeleop.toggle_ori cmd 2 CD_WORLD
  | "X"%char => BasicTeleop.toggle_trans cmd 0 CD_TCP
  | "Y"%char => BasicTeleop.toggle_trans cmd 1 CD_TCP
  | "Z"%char => BasicTeleop.toggle_trans cmd 2 CD_TCP
  | "Q"%char => BasicTeleop.toggle_ori cmd 0 CD_TCP
  | "W"%char => BasicTeleop.toggle_ori cmd 1 CD_TCP
  | "E"%char => BasicTeleop.toggle_ori cmd 2 CD_TCP
  | _ => cmd
  end.

(** The commands held after each of a sequence of keys, starting from
    [cmd]. *)
Fixpoint key_states (cmd : AxisLockDefs) (keys : list ascii) : list AxisLockDefs :=
  match keys with
  | [] => []
  | key :: rest => key_effect key cmd :: key_states (key_effect key cmd) rest
  end.

(** The uppercase partner of a lowercase key. *)
Definition upper_key (key : ascii) : ascii :=
  ascii_of_nat (nat_of_ascii key - 32).

(** The six lowercase toggle keys. *)
Definition world_keys : list ascii := [ "x"; "y"; "z"; "q"; "w"; "e" ]%char.

(** The argument of the last occurrence of [flag] among the results of
    [getopt_long_only]; [dflt] when there is none. *)
Fixpoint last_optarg (flag : ascii) (opts : list GetoptResult) (dflt : string)
  : string :=
  match opts with
  | [] => dflt
  | (opt, optarg) :: rest =>
      last_optarg flag rest (if Ascii.eqb opt flag then optarg else dflt)
  end.

(** The option values the single-arm programs handle. *)
Definition handled (o : GetoptResult) : bool :=
  Ascii.eqb (fst o) "r" || Ascii.eqb (fst o) "l" || Ascii.eqb (fst o) "c".

(** The strings the single-arm option loop holds after [opts], started
    with [remote], [local] and [lic]. *)
Definition final_args (opts : list GetoptResult) (remote local lic : string)
  : BasicTeleop.Args :=
  BasicTeleop.mkArgs (last_optarg "r" opts remote) (last_optarg "l" opts local)
                     (last_optarg "c" opts lic).

(** The command lines on which the single-arm [main] starts the set-up. *)
Definition accepted (opts : list GetoptResult) : bool :=
  forallb handled opts
  && negb (empty (last_optarg "l" opts ""))
  && negb (empty (last_optarg "r" opts ""))
  && negb (empty (last_optarg "c" opts "")).

(** The line basic_free_space_motion_teleop.cpp logs for a handled
    option. *)
Definition echo_line (o : GetoptResult) : string :=
  if Ascii.eqb (fst o) "r" then "Remote SN: " ++ snd o
  else if Ascii.eqb (fst o) "l" then "Local SN: " ++ snd o
  else "License config file: " ++ snd o.

(** The last action recorded is a [run] call. *)
Definition ends_with_run (tr : list Event) : Prop :=
  exists pre t, tr = pre ++ [EvCall t m_run].

(** A property of the stop flag and the trace that a computation never
    breaks, however the SDK answers and whether it returns or throws. *)
Definition preserves {W A : Type} (I : bool -> list Event -> Prop) (c : M W A)
  : Prop :=
  forall s : Mach W,
    I (g_stop_sched s) (trace s) ->
    I (g_stop_sched (snd (c s))) (trace (snd (c s))).

(** What [main] of basic_teleop.cpp does inside its [try] block up to
    [Start], on a session [teleop] built from [a], with the priorities
    [hp] and [lp] the scheduler reports. *)
Definition startup_calls (a : BasicTeleop.Args) (teleop : Robot2RobotTeleop)
    (hp lp : Z) : list Event :=
  [ EvConstruct (BasicTeleop.localSN a) (BasicTeleop.remoteSN a)
                (BasicTeleop.licCfgPath a);
    EvCall teleop m_enable;
    EvCall teleop m_init;
    EvCall teleop m_setLocalNullSpacePosture;
    EvCall teleop m_setRemoteNullSpacePosture;
    EvCall teleop m_setRemoteMaxWrench;
    EvScheduler;
    EvSleep 3;
    EvLog info "Omni-Teleop will run in background ... ";
    EvMaxPriority;
    EvAddTask HP_periodic_teleop 1 hp;
    EvMinPriority;
    EvAddTask LP_nonPeriodic_console 1000 lp;
    EvStart ].

(** Every SDK call of that [try] block before [Start] returned: from the
    world [w0] the calls lead, one after the other, to the world [w']. *)
Definition startup_returned {W : Type} {SDK : TeleopSDK W} (a : BasicTeleop.Args)
    (teleop : Robot2RobotTeleop) (hp lp : Z) (w0 w' : W) : Prop :=
  exists w1 w2 w3 w4 w5 w6 w7 w8 w9 w10 : W,
    sdk_construct (BasicTeleop.localSN a) (BasicTeleop.remoteSN a)
                  (BasicTeleop.licCfgPath a) w0 = (Returns teleop, w1)
    /\ sdk_enable teleop w1 = (Returns tt, w2)
    /\ sdk_init teleop w2 = (Returns tt, w3)
    /\ sdk_setLocalNullSpacePosture teleop w3 = (Returns tt, w4)
    /\ sdk_setRemoteNullSpacePosture teleop w4 = (Returns tt, w5)
    /\ sdk_setRemoteMaxWrench teleop w5 = (Returns tt, w6)
    /\ sdk_Scheduler w6 = (Returns tt, w7)
    /\ sdk_max_priority w7 = (Returns hp, w8)
    /\ sdk_AddTask HP_periodic_teleop 1 hp w8 = (Returns tt, w9)
    /\ sdk_min_priority w9 = (Returns lp, w10)
    /\ sdk_AddTask LP_nonPeriodic_console 1000 lp w10 = (Returns tt, w').

(** An SDK on which every call returns: sessions are always operational
    and report all axes free in the WORLD frame. *)
Module SteadySDK.

#[global] Instance sdk : TeleopSDK unit := {
  sdk_construct := fun _ _ _ w => (Returns 0%nat, w);
  sdk_enable := fun _ w => (Returns tt, w);
  sdk_init := fun _ w => (Returns tt, w);
  sdk_setLocalNullSpacePosture := fun _ w => (Returns tt, w);
  sdk_setRemoteNullSpacePosture := fun _ w => (Returns tt, w);
  sdk_setRemoteMaxWrench := fun _ w => (Returns tt, w);
  sdk_isOperational := fun _ w => (Returns true, w);
  sdk_run := fun _ w => (Returns tt, w);
  sdk_getLocalAxisLockState := fun _ w => (Returns (Spec.unlock_all CD_WORLD), w);
  sdk_setLocalAxisLockCmd := fun _ _ w => (Returns tt, w);
  sdk_Scheduler := fun w => (Returns tt, w);
  sdk_max_priority := fun w => (Returns 99, w);
  sdk_min_priority := fun w => (Returns 1, w);
  sdk_AddTask := fun _ _ _ w => (Returns tt, w);
  sdk_Start := fun w => (Returns tt, w)
}.

Definition boot : Mach unit := mkMach tt false [].

End SteadySDK.

(** An SDK that serves a number of calls and throws on every call after
    them: the world is the number of calls still served. *)
Module CountdownSDK.

Definition serve {A : Type} (a : A) (w : nat) : Outcome A * nat :=
  match w with
  | O => (Throws "sdk error", O)
  | S n => (Returns a, n)
  end.

#[global] Instance sdk : TeleopSDK nat := {
  sdk_construct := fun _ _ _ => serve 0%nat;
  sdk_enable := fun _ => serve tt;
  sdk_init := fun _ => serve tt;
  sdk_setLocalNullSpacePosture := fun _ => serve tt;
  sdk_setRemoteNullSpacePosture := fun _ => serve tt;
  sdk_setRemoteMaxWrench := fun _ => serve tt;
  sdk_isOperational := fun _ => serve true;
  sdk_run := fun _ => serve tt;
  sdk_getLocalAxisLockState := fun _ => serve (Spec.unlock_all CD_WORLD);
  sdk_setLocalAxisLockCmd := fun _ _ => serve tt;
  sdk_Scheduler := serve tt;
  sdk_max_priority := serve 99;
  sdk_min_priority := serve 1;
  sdk_AddTask := fun _ _ _ => serve tt;
  sdk_Start := serve tt
}.

Definition boot (calls : nat) : Mach nat := mkMach calls false [].

End CountdownSDK.

(* ===================================================================== *)
(** ** Properties of the timed axis-lock script                           *)
(* ===================================================================== *)

Lemma pushed_app (a b : list Event) : pushed (a ++ b) = pushed a ++ pushed b.
Proof.
  induction a as [|ev a IH]; [reflexivity|].
  destruct ev as [| t m | | | | | | | | | |]; simpl; try exact IH.
  destruct m; simpl; rewrite ?IH; reflexivity.
Qed.

Lemma runs_app (a b : list Event) : runs (a ++ b) = runs a ++ runs b.
Proof.
  induction a as [|ev a IH]; [reflexivity|].
  destruct ev as [| t m | | | | | | | | | |]; simpl; try exact IH.
  destruct m; simpl; rewrite ?IH; reflexivity.
Qed.

Ltac decide_cmp :=
  repeat match goal with
  | |- context [?a <=? ?b] => destruct (Z.leb_spec a b); try lia
  | |- context [?a <? ?b] => destruct (Z.ltb_spec a b); try lia
  end.

Section TimedScript.
Context {W : Type} {SDK : TeleopSDK W}.
Import BasicFreeSpaceMotionTeleop.

(** The ladder of [testAixsLock] selects the window of the table that
    contains the second before [elapsedTimeSec], overwrites all three
    members of [AxisCmd] with its pattern and pushes the result. *)
Lemma testAixsLock_at_run teleop AxisCmd elapsedTimeSec (s : Mach W) :
  testAixsLock_at teleop AxisCmd elapsedTimeSec s =
  (setLocalAxisLockCmd teleop (Spec.applyTimedScript (Z.max 0 (elapsedTimeSec - 1))) ;;
   ret (Spec.applyTimedScript (Z.max 0 (elapsedTimeSec - 1)))) s.
Proof.
  unfold testAixsLock_at, Spec.applyTimedScript, Spec.schedule, Spec.lookup.
  assert (elapsedTimeSec <= 5 \/ 5 < elapsedTimeSec <= 10 \/
          10 < elapsedTimeSec <= 15 \/ 15 < elapsedTimeSec <= 20 \/
          20 < elapsedTimeSec <= 25 \/ 25 < elapsedTimeSec <= 30 \/
          30 < elapsedTimeSec <= 35 \/ 35 < elapsedTimeSec <= 40 \/
          40 < elapsedTimeSec <= 45 \/ 45 < elapsedTimeSec <= 50 \/
          50 < elapsedTimeSec <= 55 \/ 55 < elapsedTimeSec <= 60 \/
          60 < elapsedTimeSec <= 65 \/ 65 < elapsedTimeSec) as H by lia.
  repeat (destruct H as [H | H]); decide_cmp; reflexivity.
Qed.

Lemma setLocalAxisLockCmd_trace teleop cmd (s : Mach W) :
  trace (snd (setLocalAxisLockCmd teleop cmd s)) =
  trace s ++ [EvCall teleop (m_setLocalAxisLockCmd cmd)].
Proof.
  unfold setLocalAxisLockCmd, bind, emit, sdk; simpl.
  destruct (sdk_setLocalAxisLockCmd teleop cmd (world s)); reflexivity.
Qed.

Lemma testAixsLock_at_trace teleop AxisCmd elapsedTimeSec (s : Mach W) :
  trace (snd (testAixsLock_at teleop AxisCmd elapsedTimeSec s)) =
  trace s ++ [EvCall teleop (m_setLocalAxisLockCmd
                               (Spec.applyTimedScript (Z.max 0 (elapsedTimeSec - 1))))].
Proof.
  rewrite testAixsLock_at_run.
  rewrite <- setLocalAxisLockCmd_trace.
  unfold bind, ret.
  destruct (setLocalAxisLockCmd teleop _ s) as [[[]|what] s']; reflexivity.
Qed.

Lemma testAixsLock_at_pushed teleop AxisCmd elapsedTimeSec (s : Mach W) :
  pushed (trace (snd (testAixsLock_at teleop AxisCmd elapsedTimeSec s))) =
  pushed (trace s) ++ [(teleop, Spec.applyTimedScript (Z.max 0 (elapsedTimeSec - 1)))].
Proof. rewrite testAixsLock_at_trace, pushed_app. reflexivity. Qed.

End TimedScript.

(** C1, as stated, fails: at [elapsedTimeSec = 5] the state pushed is the
    pattern of the window [0,5) (translational X free in TCP), not the
    pattern of [5,10); at 35 it is the pattern of [30,35) (everything free
    in TCP), not the pattern of [35,40). *)
Lemma boundary_instant_not_in_later_window :
  pushed (trace (snd (BasicFreeSpaceMotionTeleop.testAixsLock_at
                        0%nat TestSDK.free_world 5 (TestSDK.boot TestSDK.healthy))))
    = [(0%nat, Spec.float_trans CD_TCP 0)]
  /\ Spec.applyTimedScript 5 = Spec.float_trans CD_TCP 1
  /\ Spec.float_trans CD_TCP 0 <> Spec.float_trans CD_TCP 1
  /\ pushed (trace (snd (BasicFreeSpaceMotionTeleop.testAixsLock_at
                        0%nat TestSDK.free_world 35 (TestSDK.boot TestSDK.healthy))))
    = [(0%nat, Spec.unlock_all CD_TCP)]
  /\ Spec.applyTimedScript 35 = Spec.float_trans CD_WORLD 0
  /\ Spec.unlock_all CD_TCP <> Spec.float_trans CD_WORLD 0.
Proof. repeat split; try reflexivity; discriminate. Qed.

(** C1, amended: every multiple of five seconds from 5 s to 65 s belongs to
    the earlier window.  At [elapsedTimeSec = 5 * k], [1 <= k <= 13],
    [testAixsLock] pushes exactly one command, the pattern of the window
    that starts at [5 * k - 5]. *)
Theorem boundary_instant_in_earlier_window :
  forall (W : Type) (SDK : TeleopSDK W) (teleop : Robot2RobotTeleop)
         (AxisCmd : AxisLockDefs) (s : Mach W) (k : Z),
    1 <= k <= 13 ->
    pushed (trace (snd (BasicFreeSpaceMotionTeleop.testAixsLock_at
                          teleop AxisCmd (5 * k) s)))
    = pushed (trace s) ++ [(teleop, Spec.applyTimedScript (5 * k - 5))].
Proof.
  intros W SDK teleop AxisCmd s k Hk.
  rewrite testAixsLock_at_pushed.
  unfold Spec.applyTimedScript, Spec.schedule, Spec.lookup.
  assert (k = 1 \/ k = 2 \/ k = 3 \/ k = 4 \/ k = 5 \/ k = 6 \/ k = 7 \/ k = 8 \/
          k = 9 \/ k = 10 \/ k = 11 \/ k = 12 \/ k = 13) as H by lia.
  repeat (destruct H as [H | H]); subst k; reflexivity.
Qed.

Lemma boundary_instant_in_earlier_window_witness :
  1 <= 7 <= 13 /\
  pushed (trace (snd (BasicFreeSpaceMotionTeleop.testAixsLock_at
                        0%nat TestSDK.free_world (5 * 7)
                        (TestSDK.boot TestSDK.healthy))))
  = pushed (trace (TestSDK.boot TestSDK.healthy))
    ++ [(0%nat, Spec.applyTimedScript (5 * 7 - 5))].
Proof.
  split; [lia|].
  apply (boundary_instant_in_earlier_window TestSDK.World TestSDK.sdk 0%nat
           TestSDK.free_world (TestSDK.boot TestSDK.healthy) 7).
  lia.
Defined.

(** C2, as stated, fails: at [elapsedTimeSec = 32], inside [0,65), all six
    axes are unlocked, not one; at [elapsedTimeSec = 65] only rotational Z
    is unlocked, not all six. *)
Lemma one_free_axis_fails_at_32_and_65 :
  pushed (trace (snd (BasicFreeSpaceMotionTeleop.testAixsLock_at
                        0%nat TestSDK.free_world 32 (TestSDK.boot TestSDK.healthy))))
    = [(0%nat, Spec.unlock_all CD_TCP)]
  /\ unlocked_count (Spec.unlock_all CD_TCP) = 6%nat
  /\ locked_count (Spec.unlock_all CD_TCP) = 0%nat
  /\ pushed (trace (snd (BasicFreeSpaceMotionTeleop.testAixsLock_at
                        0%nat TestSDK.free_world 65 (TestSDK.boot TestSDK.healthy))))
    = [(0%nat, Spec.float_ori CD_WORLD 2)]
  /\ unlocked_count (Spec.float_ori CD_WORLD 2) = 1%nat
  /\ locked_count (Spec.float_ori CD_WORLD 2) = 5%nat.
Proof. repeat split; reflexivity. Qed.

(** C2, amended: [testAixsLock] pushes exactly one command [st], the table
    pattern of the second before [elapsedTimeSec].  Up to 30 s it has one
    unlocked and five locked axes in the TCP frame; after 30 s and up to
    35 s all six axes are unlocked in TCP; after 35 s and up to 65 s it has
    one unlocked and five locked axes in the WORLD frame; after 65 s all
    six axes are unlocked in WORLD. *)
Theorem timed_script_lock_counts :
  forall (W : Type) (SDK : TeleopSDK W) (teleop : Robot2RobotTeleop)
         (AxisCmd : AxisLockDefs) (s : Mach W) (elapsedTimeSec : Z),
    let st := Spec.applyTimedScript (Z.max 0 (elapsedTimeSec - 1)) in
    pushed (trace (snd (BasicFreeSpaceMotionTeleop.testAixsLock_at
                          teleop AxisCmd elapsedTimeSec s)))
      = pushed (trace s) ++ [(teleop, st)]
    /\ (elapsedTimeSec <= 30 ->
          unlocked_count st = 1%nat /\ locked_count st = 5%nat /\ coord st = CD_TCP)
    /\ (30 < elapsedTimeSec <= 35 ->
          unlocked_count st = 6%nat /\ locked_count st = 0%nat /\ coord st = CD_TCP)
    /\ (35 < elapsedTimeSec <= 65 ->
          unlocked_count st = 1%nat /\ locked_count st = 5%nat /\ coord st = CD_WORLD)
    /\ (65 < elapsedTimeSec ->
          unlocked_count st = 6%nat /\ locked_count st = 0%nat /\ coord st = CD_WORLD).
Proof.
  intros W SDK teleop AxisCmd s e st.
  split; [apply testAixsLock_at_pushed|].
  subst st. unfold Spec.applyTimedScript, Spec.schedule, Spec.lookup.
  assert (e <= 5 \/ 5 < e <= 10 \/ 10 < e <= 15 \/ 15 < e <= 20 \/ 20 < e <= 25 \/
          25 < e <= 30 \/ 30 < e <= 35 \/ 35 < e <= 40 \/ 40 < e <= 45 \/
          45 < e <= 50 \/ 50 < e <= 55 \/ 55 < e <= 60 \/ 60 < e <= 65 \/ 65 < e)
    as C by lia.
  repeat (destruct C as [C | C]);
    (split; [|split; [|split]]); intros R; try lia;
    decide_cmp; repeat split; reflexivity.
Qed.

Lemma timed_script_lock_counts_witness :
  (32 <= 35 /\ 30 < 32) /\ 65 < 100 /\
  unlocked_count (Spec.applyTimedScript (Z.max 0 (32 - 1))) = 6%nat /\
  coord (Spec.applyTimedScript (Z.max 0 (32 - 1))) = CD_TCP /\
  unlocked_count (Spec.applyTimedScript (Z.max 0 (100 - 1))) = 6%nat /\
  coord (Spec.applyTimedScript (Z.max 0 (100 - 1))) = CD_WORLD.
Proof.
  pose proof (timed_script_lock_counts TestSDK.World TestSDK.sdk 0%nat
                TestSDK.free_world (TestSDK.boot TestSDK.healthy) 32) as H32.
  pose proof (timed_script_lock_counts TestSDK.World TestSDK.sdk 0%nat
                TestSDK.free_world (TestSDK.boot TestSDK.healthy) 100) as H100.
  destruct H32 as (_ & _ & H32 & _).
  destruct H100 as (_ & _ & _ & _ & H100).
  assert (30 < 32 <= 35) as A by lia.
  assert (65 < 100) as B by lia.
  destruct (H32 A) as (U32 & _ & F32).
  destruct (H100 B) as (U100 & _ & F100).
  repeat split; (lia || assumption).
Defined.

(** C10: the command [testAixsLock] pushes depends on the elapsed time
    only.  Two invocations with the same [elapsedTimeSec] each push exactly
    one command, and it is the same frame and the same six lock booleans,
    whatever [AxisCmd] held on entry and whatever the program state. *)
Theorem timed_script_ignores_incoming_command :
  forall (W : Type) (SDK : TeleopSDK W) (teleop : Robot2RobotTeleop)
         (elapsedTimeSec : Z) (AxisCmd1 AxisCmd2 : AxisLockDefs) (s1 s2 : Mach W),
  exists st : AxisLockDefs,
    trace (snd (BasicFreeSpaceMotionTeleop.testAixsLock_at
                  teleop AxisCmd1 elapsedTimeSec s1))
      = trace s1 ++ [EvCall teleop (m_setLocalAxisLockCmd st)]
    /\ trace (snd (BasicFreeSpaceMotionTeleop.testAixsLock_at
                     teleop AxisCmd2 elapsedTimeSec s2))
      = trace s2 ++ [EvCall teleop (m_setLocalAxisLockCmd st)].
Proof.
  intros W SDK teleop e c1 c2 s1 s2.
  exists (Spec.applyTimedScript (Z.max 0 (e - 1))).
  split; apply testAixsLock_at_trace.
Qed.

(* ===================================================================== *)
(** ** Properties of the console task                                     *)
(* ===================================================================== *)

Lemma with_events_nil {W : Type} (s : Mach W) : with_events s [] = s.
Proof. destruct s; unfold with_events; simpl. rewrite app_nil_r. reflexivity. Qed.

Lemma with_events_app {W : Type} (s : Mach W) (a b : list Event) :
  with_events (with_events s a) b = with_events s (a ++ b).
Proof. unfold with_events; simpl. rewrite app_assoc. reflexivity. Qed.

Lemma pushed_map_log lvl (l : list string) : pushed (map (EvLog lvl) l) = [].
Proof. induction l; simpl; auto. Qed.

Section Console.
Context {W : Type} {SDK : TeleopSDK W}.
Import BasicTeleop.

Lemma log_lines_run lvl l (s : Mach W) :
  log_lines lvl l s = (Returns tt, with_events s (map (EvLog lvl) l)).
Proof.
  revert s. induction l as [|x l IH]; intros s.
  - simpl. rewrite with_events_nil. reflexivity.
  - simpl. unfold bind, log, emit. rewrite IH. unfold with_events; simpl.
    rewrite <- app_assoc. reflexivity.
Qed.

Lemma cout_lines_run l (s : Mach W) :
  cout_lines l s = (Returns tt, with_events s (map EvCout l)).
Proof.
  revert s. induction l as [|x l IH]; intros s.
  - simpl. rewrite with_events_nil. reflexivity.
  - simpl. unfold bind, cout, emit. rewrite IH. unfold with_events; simpl.
    rewrite <- app_assoc. reflexivity.
Qed.

(** A toggle key changes one lock boolean and selects the key's frame;
    nothing is logged. *)
Lemma console_switch_toggle key cmd (s : Mach W) :
  In key toggle_keys ->
  exists cmd',
    console_switch key cmd s = (Returns cmd', s)
    /\ diff_count (lock_bits cmd) (lock_bits cmd') = 1%nat
    /\ coord cmd' = key_frame key.
Proof.
  intros H. destruct cmd as [c [o0 o1 o2] [t0 t1 t2]].
  simpl in H.
  repeat (destruct H as [H | H]); try contradiction; subst key;
    eexists; (split; [reflexivity|]); split; try reflexivity;
    simpl; rewrite ?Bool.eqb_reflx;
    repeat match goal with
           | |- context [Bool.eqb ?a (negb ?a)] => destruct a; simpl
           end; reflexivity.
Qed.

(** The help key prints the menu and leaves the command as it is. *)
Lemma console_switch_help cmd (s : Mach W) :
  console_switch "m"%char cmd s
  = (Returns cmd, with_events s (map (EvLog info) help_text)).
Proof.
  unfold console_switch, bind. rewrite log_lines_run. reflexivity.
Qed.

(** Every other key takes the [default] branch. *)
Lemma console_switch_default key cmd (s : Mach W) :
  ~ In key toggle_keys -> key <> "m"%char ->
  console_switch key cmd s
  = (Returns cmd, with_events s [EvLog warn invalid_command]).
Proof.
  intros Hin Hm.
  destruct key as [[] [] [] [] [] [] [] []];
    try reflexivity; exfalso;
    first [ apply Hm; reflexivity | apply Hin; simpl; tauto ].
Qed.

(** In every case the switch returns, logs without pushing, and changes
    the command only for a toggle key. *)
Lemma console_switch_run key cmd (s : Mach W) :
  exists cmd' before,
    console_switch key cmd s = (Returns cmd', with_events s before)
    /\ pushed before = []
    /\ (~ In key toggle_keys -> cmd' = cmd).
Proof.
  destruct (in_dec ascii_dec key toggle_keys) as [Hin | Hin].
  - destruct (console_switch_toggle key cmd s Hin) as (cmd' & E & _).
    exists cmd', []. rewrite with_events_nil. repeat split; [exact E | tauto].
  - destruct (ascii_dec key "m"%char) as [-> | Hm].
    + exists cmd, (map (EvLog info) help_text).
      rewrite console_switch_help.
      split; [reflexivity|]. split; [apply pushed_map_log | reflexivity].
    + exists cmd, [EvLog warn invalid_command].
      rewrite (console_switch_default key cmd s Hin Hm).
      split; [reflexivity|]. split; reflexivity.
Qed.

(** What one pass through the loop body does after the switch. *)
Lemma push_and_report teleop cmd (s : Mach W) :
  exists after,
    trace (snd ((setLocalAxisLockCmd teleop cmd ;; log_status cmd ;; ret cmd) s))
    = trace s ++ [EvCall teleop (m_setLocalAxisLockCmd cmd)] ++ after
    /\ pushed after = [].
Proof.
  unfold setLocalAxisLockCmd, log_status, bind, emit, sdk, ret; simpl.
  destruct (sdk_setLocalAxisLockCmd teleop cmd (world s)) as [[[]|what] w']; simpl.
  - exists [ EvLogAxis "X" (coord cmd) (at_ (trans_axis_lock_list_ cmd) 0);
             EvLogAxis "Y" (coord cmd) (at_ (trans_axis_lock_list_ cmd) 1);
             EvLogAxis "Z" (coord cmd) (at_ (trans_axis_lock_list_ cmd) 2);
             EvLogAxis "Rx" (coord cmd) (at_ (ori_axis_lock_list_ cmd) 0);
             EvLogAxis "Ry" (coord cmd) (at_ (ori_axis_lock_list_ cmd) 1);
             EvLogAxis "Rz" (coord cmd) (at_ (ori_axis_lock_list_ cmd) 2) ].
    split; [|reflexivity]. repeat rewrite <- app_assoc. reflexivity.
  - exists []. split; reflexivity.
Qed.

End Console.

(** C3: each of the twelve toggle keys makes the key switch of the console
    task return a command that differs from the current one in exactly one
    of the six lock booleans, in the frame of the key (lowercase WORLD,
    uppercase TCP), without logging anything.  Every key that is neither a
    toggle key nor the help key [m] leaves the command as it is and logs
    the invalid-command warning. *)
Theorem console_switch_toggles_one_lock :
  forall (W : Type) (SDK : TeleopSDK W) (key : ascii) (cmd : AxisLockDefs)
         (s : Mach W),
    (In key toggle_keys ->
       exists cmd',
         BasicTeleop.console_switch key cmd s = (Returns cmd', s)
         /\ diff_count (lock_bits cmd) (lock_bits cmd') = 1%nat
         /\ coord cmd' = key_frame key)
    /\ (~ In key toggle_keys -> key <> "m"%char ->
          BasicTeleop.console_switch key cmd s
          = (Returns cmd, with_events s [EvLog warn BasicTeleop.invalid_command])).
Proof.
  intros W SDK key cmd s. split.
  - apply console_switch_toggle.
  - apply console_switch_default.
Qed.

Lemma console_switch_toggles_one_lock_witness :
  (exists cmd',
     BasicTeleop.console_switch "Y"%char TestSDK.free_world (TestSDK.boot TestSDK.healthy)
     = (Returns cmd', TestSDK.boot TestSDK.healthy)
     /\ diff_count (lock_bits TestSDK.free_world) (lock_bits cmd') = 1%nat
     /\ coord cmd' = key_frame "Y"%char)
  /\ BasicTeleop.console_switch "k"%char TestSDK.free_world (TestSDK.boot TestSDK.healthy)
     = (Returns TestSDK.free_world,
        with_events (TestSDK.boot TestSDK.healthy)
                    [EvLog warn BasicTeleop.invalid_command]).
Proof.
  split.
  - apply (console_switch_toggles_one_lock TestSDK.World TestSDK.sdk "Y"%char
             TestSDK.free_world (TestSDK.boot TestSDK.healthy)).
    simpl. tauto.
  - apply (console_switch_toggles_one_lock TestSDK.World TestSDK.sdk "k"%char
             TestSDK.free_world (TestSDK.boot TestSDK.healthy)).
    + simpl. intros H. repeat (destruct H as [H | H]; [discriminate H|]). exact H.
    + discriminate.
Defined.

(** C9: for every line the console task processes, whatever its first
    character, the loop body makes exactly one [setLocalAxisLockCmd] call,
    after the key switch has run, and the command it pushes is the one the
    switch returned: the current command unchanged unless the key is a
    toggle key. *)
Theorem console_line_pushes_once :
  forall (W : Type) (SDK : TeleopSDK W) (teleop : Robot2RobotTeleop)
         (cmd : AxisLockDefs) (userInput : string) (s : Mach W),
  exists (cmd' : AxisLockDefs) (before after : list Event),
    BasicTeleop.console_switch (BasicTeleop.first_char userInput) cmd s
      = (Returns cmd', with_events s before)
    /\ trace (snd (BasicTeleop.console_iteration teleop cmd userInput s))
       = trace s ++ before ++ [EvCall teleop (m_setLocalAxisLockCmd cmd')] ++ after
    /\ pushed before = []
    /\ pushed after = []
    /\ pushed (trace (snd (BasicTeleop.console_iteration teleop cmd userInput s)))
       = pushed (trace s) ++ [(teleop, cmd')]
    /\ (~ In (BasicTeleop.first_char userInput) toggle_keys -> cmd' = cmd).
Proof.
  intros W SDK teleop cmd userInput s.
  destruct (console_switch_run (BasicTeleop.first_char userInput) cmd s)
    as (cmd' & before & Esw & Pb & Hsame).
  destruct (push_and_report teleop cmd' (with_events s before)) as (after & Etr & Pa).
  assert (trace (snd (BasicTeleop.console_iteration teleop cmd userInput s))
          = trace s ++ before ++ [EvCall teleop (m_setLocalAxisLockCmd cmd')] ++ after)
    as T.
  { unfold BasicTeleop.console_iteration. unfold bind at 1. rewrite Esw.
    rewrite Etr. simpl. rewrite <- app_assoc. reflexivity. }
  exists cmd', before, after.
  repeat split; try assumption.
  rewrite T. rewrite !pushed_app, Pb, Pa. simpl. reflexivity.
Qed.

Lemma console_line_pushes_once_witness :
  exists (cmd' : AxisLockDefs) (before after : list Event),
    BasicTeleop.console_switch (BasicTeleop.first_char "m") TestSDK.free_world
                               (TestSDK.boot TestSDK.healthy)
      = (Returns cmd', with_events (TestSDK.boot TestSDK.healthy) before)
    /\ pushed (trace (snd (BasicTeleop.console_iteration
                             0%nat TestSDK.free_world "m"
                             (TestSDK.boot TestSDK.healthy))))
       = [(0%nat, cmd')]
    /\ cmd' = TestSDK.free_world.
Proof.
  destruct (console_line_pushes_once TestSDK.World TestSDK.sdk 0%nat
              TestSDK.free_world "m" (TestSDK.boot TestSDK.healthy))
    as (cmd' & before & after & Esw & _ & _ & _ & Hp & Hsame).
  exists cmd', before, after.
  split; [exact Esw|]. split; [exact Hp|].
  apply Hsame. simpl.
  intros H. repeat (destruct H as [H | H]; [discriminate H|]). exact H.
Defined.

(* ===================================================================== *)
(** ** Properties of the control task                                     *)
(* ===================================================================== *)

Section ControlTask.
Context {W : Type} {SDK : TeleopSDK W}.

(** The four ways one invocation of the single-arm callback can go. *)
Lemma periodicTeleopTask_run teleop (s : Mach W) :
  BasicTeleop.periodicTeleopTask teleop s =
  match sdk_isOperational teleop (world s) with
  | (Returns true, w1) =>
      match sdk_run teleop w1 with
      | (Returns _, w2) =>
          (Returns tt,
           mkMach w2 (g_stop_sched s)
                  (trace s ++ [EvCall teleop m_isOperational; EvCall teleop m_run]))
      | (Throws what, w2) =>
          (Returns tt,
           mkMach w2 true
                  (trace s ++ [EvCall teleop m_isOperational; EvCall teleop m_run;
                               EvCerr (what ++ newline)]))
      end
  | (Returns false, w1) =>
      (Returns tt,
       mkMach w1 true
              (trace s ++ [EvCall teleop m_isOperational;
                           EvCerr (fault_message ++ newline)]))
  | (Throws what, w1) =>
      (Returns tt,
       mkMach w1 true
              (trace s ++ [EvCall teleop m_isOperational; EvCerr (what ++ newline)]))
  end.
Proof.
  unfold BasicTeleop.periodicTeleopTask, isOperational, run, cerr,
    try_catch, bind, emit, sdk, write_g_stop_sched, throw, ret, newline; simpl.
  destruct (sdk_isOperational teleop (world s)) as [[[]|what] w1]; simpl;
    repeat rewrite <- app_assoc; try reflexivity.
  destruct (sdk_run teleop w1) as [[[]|what] w2]; simpl;
    repeat rewrite <- app_assoc; reflexivity.
Qed.

(** The dual-arm callback: [teleop2] does not occur on the right-hand
    side. *)
Lemma periodicTeleopTask2_run teleop1 teleop2 (s : Mach W) :
  BasicCartTeleop.periodicTeleopTask teleop1 teleop2 s =
  match sdk_isOperational teleop1 (world s) with
  | (Returns true, w1) =>
      match sdk_isOperational teleop1 w1 with
      | (Returns true, w2) =>
          match sdk_run teleop1 w2 with
          | (Returns _, w3) =>
              (Returns tt,
               mkMach w3 (g_stop_sched s)
                      (trace s ++ [EvCall teleop1 m_isOperational;
                                   EvCall teleop1 m_isOperational;
                                   EvCall teleop1 m_run]))
          | (Throws what, w3) =>
              (Returns tt,
               mkMach w3 true
                      (trace s ++ [EvCall teleop1 m_isOperational;
                                   EvCall teleop1 m_isOperational;
                                   EvCall teleop1 m_run;
                                   EvCerr (what ++ newline)]))
          end
      | (Returns false, w2) =>
          (Returns tt,
           mkMach w2 true
                  (trace s ++ [EvCall teleop1 m_isOperational;
                               EvCall teleop1 m_isOperational;
                               EvCerr (fault_message ++ newline)]))
      | (Throws what, w2) =>
          (Returns tt,
           mkMach w2 true
                  (trace s ++ [EvCall teleop1 m_isOperational;
                               EvCall teleop1 m_isOperational;
                               EvCerr (what ++ newline)]))
      end
  | (Returns false, w1) =>
      (Returns tt,
       mkMach w1 true
              (trace s ++ [EvCall teleop1 m_isOperational;
                           EvCerr (fault_message ++ newline)]))
  | (Throws what, w1) =>
      (Returns tt,
       mkMach w1 true
              (trace s ++ [EvCall teleop1 m_isOperational; EvCerr (what ++ newline)]))
  end.
Proof.
  unfold BasicCartTeleop.periodicTeleopTask, isOperational, run, cerr,
    try_catch, bind, emit, sdk, write_g_stop_sched, throw, ret, newline; simpl.
  destruct (sdk_isOperational teleop1 (world s)) as [[[]|what] w1]; simpl;
    repeat rewrite <- app_assoc; try reflexivity.
  destruct (sdk_isOperational teleop1 w1) as [[[]|what] w2]; simpl;
    repeat rewrite <- app_assoc; try reflexivity.
  destruct (sdk_run teleop1 w2) as [[[]|what] w3]; simpl;
    repeat rewrite <- app_assoc; reflexivity.
Qed.

(** The single-arm callback does what the claim on fault handling asks:
    a session that reports a fault is not run in that tick and the stop
    flag is set. *)
Lemma single_arm_fault_halts teleop (s : Mach W) w1 :
  sdk_isOperational teleop (world s) = (Returns false, w1) ->
  let s' := snd (BasicTeleop.periodicTeleopTask teleop s) in
  runs (trace s') = runs (trace s) /\ g_stop_sched s' = true.
Proof.
  intros H s'. subst s'. rewrite periodicTeleopTask_run, H. simpl.
  rewrite runs_app. simpl. rewrite app_nil_r. split; reflexivity.
Qed.

(** The callback never lets an exception escape and never clears the
    stop flag. *)
Lemma periodicTeleopTask_returns teleop (s : Mach W) :
  fst (BasicTeleop.periodicTeleopTask teleop s) = Returns tt.
Proof.
  rewrite periodicTeleopTask_run.
  destruct (sdk_isOperational teleop (world s)) as [[[]|what] w1]; try reflexivity.
  destruct (sdk_run teleop w1) as [[[]|what] w2]; reflexivity.
Qed.

Lemma periodicTeleopTask_keeps_stop teleop (s : Mach W) :
  g_stop_sched s = true ->
  g_stop_sched (snd (BasicTeleop.periodicTeleopTask teleop s)) = true.
Proof.
  intros H. rewrite periodicTeleopTask_run.
  destruct (sdk_isOperational teleop (world s)) as [[[]|what] w1]; try reflexivity.
  destruct (sdk_run teleop w1) as [[[]|what] w2]; simpl; auto.
Qed.

Lemma ticks_keep_stop n teleop (s : Mach W) :
  g_stop_sched s = true ->
  g_stop_sched (snd (BasicTeleop.ticks n teleop s)) = true.
Proof.
  revert s. induction n as [|n IH]; intros s H; [exact H|].
  simpl. unfold bind.
  pose proof (periodicTeleopTask_returns teleop s) as R.
  pose proof (periodicTeleopTask_keeps_stop teleop s H) as K.
  destruct (BasicTeleop.periodicTeleopTask teleop s) as [[[]|what] s1];
    simpl in R, K; [|discriminate R].
  apply IH. exact K.
Qed.

End ControlTask.

(** X20.  In the dual-arm callback the second session is never touched: a
    tick polls (once or twice) and runs (at most once) [teleop1] only. *)
Lemma dual_arm_tick_uses_first_session_only :
  forall (W : Type) (SDK : TeleopSDK W) (teleop1 teleop2 : Robot2RobotTeleop)
         (s : Mach W),
  exists p r,
    polled (trace (snd (BasicCartTeleop.periodicTeleopTask teleop1 teleop2 s)))
      = polled (trace s) ++ p
    /\ runs (trace (snd (BasicCartTeleop.periodicTeleopTask teleop1 teleop2 s)))
      = runs (trace s) ++ r
    /\ (p = [teleop1] \/ p = [teleop1; teleop1])
    /\ (r = [] \/ r = [teleop1]).
Proof.
  intros W SDK teleop1 teleop2 s.
  assert (forall a b, polled (a ++ b) = polled a ++ polled b) as polled_app.
  { induction a as [|ev a IH]; intros b; [reflexivity|].
    destruct ev as [| t m | | | | | | | | | |]; simpl; try apply IH.
    destruct m; simpl; rewrite ?IH; reflexivity. }
  rewrite periodicTeleopTask2_run.
  destruct (sdk_isOperational teleop1 (world s)) as [[[]|what] w1].
  - destruct (sdk_isOperational teleop1 w1) as [[[]|what] w2].
    + destruct (sdk_run teleop1 w2) as [[[]|what] w3]; simpl;
        rewrite polled_app, runs_app; simpl;
        exists [teleop1; teleop1], [teleop1]; auto.
    + simpl; rewrite polled_app, runs_app; simpl.
      exists [teleop1; teleop1], []; auto.
    + simpl; rewrite polled_app, runs_app; simpl.
      exists [teleop1; teleop1], []; auto.
  - simpl; rewrite polled_app, runs_app; simpl. exists [teleop1], []; auto.
  - simpl; rewrite polled_app, runs_app; simpl. exists [teleop1], []; auto.
Qed.

(** C4 fails on the dual-arm callback.  With the left session (0) healthy
    and the right session (1) reporting a fault, one tick polls the left
    session twice, never polls the right one, calls [run()] on the left
    session and leaves the stop flag clear. *)
Theorem dual_arm_tick_misses_right_fault :
  sdk_isOperational 1%nat TestSDK.right_faulted
    = (Returns false, TestSDK.right_faulted)
  /\ BasicCartTeleop.periodicTeleopTask 0%nat 1%nat
       (TestSDK.boot TestSDK.right_faulted)
     = (Returns tt,
        mkMach TestSDK.right_faulted false
               [EvCall 0%nat m_isOperational; EvCall 0%nat m_isOperational;
                EvCall 0%nat m_run]).
Proof. split; reflexivity. Qed.

(** C5 fails on the dual-arm callback.  With both sessions healthy, one
    tick calls [run()] on the left session (0) and returns; [run()] is not
    called on the right session (1). *)
Theorem dual_arm_tick_runs_left_only :
  BasicCartTeleop.periodicTeleopTask 0%nat 1%nat (TestSDK.boot TestSDK.two_sessions)
  = (Returns tt,
     mkMach TestSDK.two_sessions false
            [EvCall 0%nat m_isOperational; EvCall 0%nat m_isOperational;
             EvCall 0%nat m_run])
  /\ runs (trace (snd (BasicCartTeleop.periodicTeleopTask 0%nat 1%nat
                         (TestSDK.boot TestSDK.two_sessions)))) = [0%nat]
  /\ runs (trace (snd (BasicCartTeleop.ticks 3 0%nat 1%nat
                         (TestSDK.boot TestSDK.two_sessions))))
     = [0%nat; 0%nat; 0%nat].
Proof. repeat split; reflexivity. Qed.

(** C6, as stated, fails: the first tick's [run()] throws and sets the stop
    flag, and the next tick, started with the flag set, calls [run()]
    again. *)
Lemma run_called_again_after_stop :
  BasicTeleop.periodicTeleopTask 0%nat (TestSDK.boot TestSDK.run_fails_once)
  = (Returns tt,
     mkMach TestSDK.healthy_one true
            [EvCall 0%nat m_isOperational; EvCall 0%nat m_run;
             EvCerr ("run failed" ++ newline)])
  /\ BasicTeleop.periodicTeleopTask 0%nat
       (mkMach TestSDK.healthy_one true
               [EvCall 0%nat m_isOperational; EvCall 0%nat m_run;
                EvCerr ("run failed" ++ newline)])
     = (Returns tt,
        mkMach TestSDK.healthy_one true
               [EvCall 0%nat m_isOperational; EvCall 0%nat m_run;
                EvCerr ("run failed" ++ newline);
                EvCall 0%nat m_isOperational; EvCall 0%nat m_run])
  /\ runs (trace (snd (BasicTeleop.ticks 2 0%nat
                         (TestSDK.boot TestSDK.run_fails_once))))
     = [0%nat; 0%nat].
Proof. repeat split; reflexivity. Qed.

(** C6, amended.  If [run()] throws during a tick, that tick prints the
    message, sets the stop flag, and the flag stays set over any number of
    later ticks.  In every tick, whatever the stop flag holds, the first
    action is the [isOperational()] poll, and [run()] is called exactly
    when the poll returned true: the callback does not read the stop
    flag. *)
Theorem run_error_sets_stop_flag :
  forall (W : Type) (SDK : TeleopSDK W) (teleop : Robot2RobotTeleop)
         (s : Mach W) (w1 w2 : W) (what : string),
    sdk_isOperational teleop (world s) = (Returns true, w1) ->
    sdk_run teleop w1 = (Throws what, w2) ->
    BasicTeleop.periodicTeleopTask teleop s
      = (Returns tt,
         mkMach w2 true
                (trace s ++ [EvCall teleop m_isOperational; EvCall teleop m_run;
                             EvCerr (what ++ newline)]))
    /\ (forall n : nat,
          g_stop_sched
            (snd (BasicTeleop.ticks n teleop
                    (snd (BasicTeleop.periodicTeleopTask teleop s)))) = true)
    /\ (forall s0 : Mach W,
          exists rest : list Event,
            trace (snd (BasicTeleop.periodicTeleopTask teleop s0))
              = trace s0 ++ EvCall teleop m_isOperational :: rest
            /\ runs rest
               = match fst (sdk_isOperational teleop (world s0)) with
                 | Returns true => [teleop]
                 | _ => []
                 end).
Proof.
  intros W SDK teleop s w1 w2 what Hop Hrun.
  assert (BasicTeleop.periodicTeleopTask teleop s
          = (Returns tt,
             mkMach w2 true
                    (trace s ++ [EvCall teleop m_isOperational; EvCall teleop m_run;
                                 EvCerr (what ++ newline)]))) as E.
  { rewrite periodicTeleopTask_run, Hop, Hrun. reflexivity. }
  split; [exact E|]. split.
  - intros n. apply ticks_keep_stop. rewrite E. reflexivity.
  - intros s0. rewrite periodicTeleopTask_run.
    destruct (sdk_isOperational teleop (world s0)) as [[[]|what0] v1]; simpl.
    + destruct (sdk_run teleop v1) as [[[]|what1] v2]; simpl;
        eexists; split; reflexivity.
    + eexists; split; reflexivity.
    + eexists; split; reflexivity.
Qed.

Lemma run_error_sets_stop_flag_witness :
  sdk_isOperational 0%nat (world (TestSDK.boot TestSDK.run_fails_once))
    = (Returns true, TestSDK.run_fails_once)
  /\ sdk_run 0%nat TestSDK.run_fails_once = (Throws "run failed", TestSDK.healthy_one)
  /\ g_stop_sched
       (snd (BasicTeleop.ticks 5 0%nat
               (snd (BasicTeleop.periodicTeleopTask 0%nat
                       (TestSDK.boot TestSDK.run_fails_once))))) = true.
Proof.
  split; [reflexivity|]. split; [reflexivity|].
  destruct (run_error_sets_stop_flag TestSDK.World TestSDK.sdk 0%nat
              (TestSDK.boot TestSDK.run_fails_once)
              TestSDK.run_fails_once TestSDK.healthy_one "run failed"
              eq_refl eq_refl) as (_ & K & _).
  apply K.
Defined.

(* ===================================================================== *)
(** ** Properties of [main]                                               *)
(* ===================================================================== *)

Lemma missing_cons (flag opt : ascii) (optarg : string) (rest : list GetoptResult) :
  missing flag ((opt, optarg) :: rest) -> opt <> flag /\ missing flag rest.
Proof.
  intros H. split.
  - intros ->. apply (H optarg). left. reflexivity.
  - intros arg Hin. apply (H arg). right. exact Hin.
Qed.

Section CommandLine.
Context {W : Type} {SDK : TeleopSDK W}.

Lemma usage_exit (s : Mach W) :
  (cout_lines usage ;; ret (Exited 1)) s
  = (Returns (Exited 1), with_events s (map EvCout usage)).
Proof. unfold bind. rewrite cout_lines_run. reflexivity. Qed.

(** The option switch of basic_teleop.cpp as a chain of comparisons. *)
Lemma getopt_loop_cons opt optarg rest (a : BasicTeleop.Args)
    (k : BasicTeleop.Args -> M W MainResult) :
  BasicTeleop.getopt_loop ((opt, optarg) :: rest) a k =
  if Ascii.eqb opt "r" then
    BasicTeleop.getopt_loop rest
      (BasicTeleop.mkArgs optarg (BasicTeleop.localSN a) (BasicTeleop.licCfgPath a)) k
  else if Ascii.eqb opt "l" then
    BasicTeleop.getopt_loop rest
      (BasicTeleop.mkArgs (BasicTeleop.remoteSN a) optarg (BasicTeleop.licCfgPath a)) k
  else if Ascii.eqb opt "c" then
    BasicTeleop.getopt_loop rest
      (BasicTeleop.mkArgs (BasicTeleop.remoteSN a) (BasicTeleop.localSN a) optarg) k
  else (BasicTeleop.printHelp ;; ret (Exited 1)).
Proof. destruct opt as [[] [] [] [] [] [] [] []]; reflexivity. Qed.

(** The option switch of basic_cart_teleop.cpp as a chain of comparisons. *)
Lemma cart_getopt_loop_cons opt optarg rest (a : BasicCartTeleop.Args)
    (k : BasicCartTeleop.Args -> M W MainResult) :
  BasicCartTeleop.getopt_loop ((opt, optarg) :: rest) a k =
  if Ascii.eqb opt "r" then
    BasicCartTeleop.getopt_loop rest
      (BasicCartTeleop.mkArgs optarg (BasicCartTeleop.localSN_left a)
         (BasicCartTeleop.remoteSN_right a) (BasicCartTeleop.localSN_right a)
         (BasicCartTeleop.licCfgPath a)) k
  else if Ascii.eqb opt "l" then
    BasicCartTeleop.getopt_loop rest
      (BasicCartTeleop.mkArgs (BasicCartTeleop.remoteSN_left a) optarg
         (BasicCartTeleop.remoteSN_right a) (BasicCartTeleop.localSN_right a)
         (BasicCartTeleop.licCfgPath a)) k
  else if Ascii.eqb opt "R" then
    BasicCartTeleop.getopt_loop rest
      (BasicCartTeleop.mkArgs (BasicCartTeleop.remoteSN_left a)
         (BasicCartTeleop.localSN_left a) optarg (BasicCartTeleop.localSN_right a)
         (BasicCartTeleop.licCfgPath a)) k
  else if Ascii.eqb opt "L" then
    BasicCartTeleop.getopt_loop rest
      (BasicCartTeleop.mkArgs (BasicCartTeleop.remoteSN_left a)
         (BasicCartTeleop.localSN_left a) (BasicCartTeleop.remoteSN_right a) optarg
         (BasicCartTeleop.licCfgPath a)) k
  else if Ascii.eqb opt "c" then
    BasicCartTeleop.getopt_loop rest
      (BasicCartTeleop.mkArgs (BasicCartTeleop.remoteSN_left a)
         (BasicCartTeleop.localSN_left a) (BasicCartTeleop.remoteSN_right a)
         (BasicCartTeleop.localSN_right a) optarg) k
  else (BasicCartTeleop.printHelp ;; ret (Exited 1)).
Proof. destruct opt as [[] [] [] [] [] [] [] []]; reflexivity. Qed.

(** A string the loop has not yet filled, for a flag that will not come,
    is still empty when the strings are tested. *)
Lemma basic_missing_flag_exits polls opts :
  forall (a : BasicTeleop.Args) (s : Mach W),
    (missing "l" opts /\ BasicTeleop.localSN a = "")
    \/ (missing "r" opts /\ BasicTeleop.remoteSN a = "")
    \/ (missing "c" opts /\ BasicTeleop.licCfgPath a = "") ->
    BasicTeleop.getopt_loop opts a (BasicTeleop.after_getopt polls) s
    = (Returns (Exited 1), with_events s (map EvCout usage)).
Proof.
  induction opts as [|[opt optarg] rest IH]; intros a s H.
  - simpl. unfold BasicTeleop.after_getopt, BasicTeleop.printHelp.
    destruct H as [[_ E] | [[_ E] | [_ E]]]; rewrite E; simpl;
      rewrite ?orb_true_r; simpl; apply usage_exit.
  - rewrite getopt_loop_cons.
    assert ((opt <> "l"%char /\ missing "l" rest /\ BasicTeleop.localSN a = "")
            \/ (opt <> "r"%char /\ missing "r" rest /\ BasicTeleop.remoteSN a = "")
            \/ (opt <> "c"%char /\ missing "c" rest /\ BasicTeleop.licCfgPath a = ""))
      as H'.
    { destruct H as [[M E] | [[M E] | [M E]]];
        apply missing_cons in M; tauto. }
    clear H.
    destruct (Ascii.eqb_spec opt "r"); [subst opt; apply IH; simpl; tauto|].
    destruct (Ascii.eqb_spec opt "l"); [subst opt; apply IH; simpl; tauto|].
    destruct (Ascii.eqb_spec opt "c"); [subst opt; apply IH; simpl; tauto|].
    apply usage_exit.
Qed.

Lemma cart_missing_flag_exits polls opts :
  forall (a : BasicCartTeleop.Args) (s : Mach W),
    (missing "l" opts /\ BasicCartTeleop.localSN_left a = "")
    \/ (missing "r" opts /\ BasicCartTeleop.remoteSN_left a = "")
    \/ (missing "L" opts /\ BasicCartTeleop.localSN_right a = "")
    \/ (missing "R" opts /\ BasicCartTeleop.remoteSN_right a = "")
    \/ (missing "c" opts /\ BasicCartTeleop.licCfgPath a = "") ->
    BasicCartTeleop.getopt_loop opts a (BasicCartTeleop.after_getopt polls) s
    = (Returns (Exited 1), with_events s (map EvCout usage)).
Proof.
  induction opts as [|[opt optarg] rest IH]; intros a s H.
  - simpl. unfold BasicCartTeleop.after_getopt, BasicCartTeleop.printHelp.
    destruct H as [[_ E] | [[_ E] | [[_ E] | [[_ E] | [_ E]]]]]; rewrite E; simpl;
      rewrite ?orb_true_r; simpl; apply usage_exit.
  - rewrite cart_getopt_loop_cons.
    assert ((opt <> "l"%char /\ missing "l" rest
             /\ BasicCartTeleop.localSN_left a = "")
            \/ (opt <> "r"%char /\ missing "r" rest
                /\ BasicCartTeleop.remoteSN_left a = "")
            \/ (opt <> "L"%char /\ missing "L" rest
                /\ BasicCartTeleop.localSN_right a = "")
            \/ (opt <> "R"%char /\ missing "R" rest
                /\ BasicCartTeleop.remoteSN_right a = "")
            \/ (opt <> "c"%char /\ missing "c" rest
                /\ BasicCartTeleop.licCfgPath a = ""))
      as H'.
    { destruct H as [[M E] | [[M E] | [[M E] | [[M E] | [M E]]]]];
        apply missing_cons in M; tauto. }
    clear H.
    destruct (Ascii.eqb_spec opt "r"); [subst opt; apply IH; simpl; tauto|].
    destruct (Ascii.eqb_spec opt "l"); [subst opt; apply IH; simpl; tauto|].
    destruct (Ascii.eqb_spec opt "R"); [subst opt; apply IH; simpl; tauto|].
    destruct (Ascii.eqb_spec opt "L"); [subst opt; apply IH; simpl; tauto|].
    destruct (Ascii.eqb_spec opt "c"); [subst opt; apply IH; simpl; tauto|].
    apply usage_exit.
Qed.

End CommandLine.

(** C7: when a required flag never comes out of [getopt_long_only] ([-l],
    [-r] or [-c]; in the dual-arm program also [-L] or [-R]), [main] prints
    the usage text, does nothing else, and returns 1. *)
Theorem missing_flag_prints_usage_and_exits_1 :
  forall (W : Type) (SDK : TeleopSDK W) (opts : list GetoptResult) (polls : nat)
         (s : Mach W),
    (missing "l" opts \/ missing "r" opts \/ missing "c" opts ->
       BasicTeleop.main opts polls s
       = (Returns (Exited 1), with_events s (map EvCout usage)))
    /\ (missing "l" opts \/ missing "r" opts \/ missing "L" opts
        \/ missing "R" opts \/ missing "c" opts ->
          BasicCartTeleop.main opts polls s
          = (Returns (Exited 1), with_events s (map EvCout usage))).
Proof.
  intros W SDK opts polls s. split; intros H.
  - apply basic_missing_flag_exits. simpl. tauto.
  - apply cart_missing_flag_exits. simpl. tauto.
Qed.

Lemma missing_flag_prints_usage_and_exits_1_witness :
  missing "c" [("l"%char, "Rizon4s-123456"); ("r"%char, "Rizon4s-654321")]
  /\ BasicTeleop.main [("l"%char, "Rizon4s-123456"); ("r"%char, "Rizon4s-654321")] 3
       (TestSDK.boot TestSDK.healthy)
     = (Returns (Exited 1),
        with_events (TestSDK.boot TestSDK.healthy) (map EvCout usage))
  /\ BasicCartTeleop.main
       [("l"%char, "Rizon4s-123456"); ("r"%char, "Rizon4s-654321")] 3
       (TestSDK.boot TestSDK.healthy)
     = (Returns (Exited 1),
        with_events (TestSDK.boot TestSDK.healthy) (map EvCout usage)).
Proof.
  assert (missing "c" [("l"%char, "Rizon4s-123456"); ("r"%char, "Rizon4s-654321")])
    as Hm.
  { intros optarg [H | [H | []]]; discriminate H. }
  split; [exact Hm|].
  split;
    apply (missing_flag_prints_usage_and_exits_1 TestSDK.World TestSDK.sdk
             [("l"%char, "Rizon4s-123456"); ("r"%char, "Rizon4s-654321")] 3%nat
             (TestSDK.boot TestSDK.healthy)); tauto.
Defined.

(** X19.  The option table of basic_cart_teleop.cpp has the entries [l], [r] and
    [c] only, so [getopt_long_only] returns one of these or [?]: on such a
    command line the dual-arm [main] always ends in the usage text. *)
Lemma cart_main_with_its_option_table :
  forall (W : Type) (SDK : TeleopSDK W) (opts : list GetoptResult) (polls : nat)
         (s : Mach W),
    Forall (fun o => In (fst o) ["l"; "r"; "c"; "?"]%char) opts ->
    BasicCartTeleop.main opts polls s
    = (Returns (Exited 1), with_events s (map EvCout usage)).
Proof.
  intros W SDK opts polls s H.
  apply cart_missing_flag_exits. right. right. left. split; [|reflexivity].
  intros optarg Hin. rewrite Forall_forall in H. specialize (H _ Hin).
  simpl in H. repeat (destruct H as [H | H]; [discriminate H|]). exact H.
Qed.

Section Abort.
Context {W : Type} {SDK : TeleopSDK W}.

Lemma aborts_bind {A B} (c : M W A) (k : A -> M W B) :
  aborts_on_call c -> (forall a, aborts_on_call (k a)) ->
  aborts_on_call (x <- c ;; k x).
Proof.
  intros Hc Hk s s' what E. unfold bind in E.
  destruct (c s) as [[a | what0] s1] eqn:Ec.
  - exact (Hk a s1 s' what E).
  - inversion E; subst. exact (Hc s s' what Ec).
Qed.

Lemma aborts_ret {A} (a : A) : aborts_on_call (W := W) (ret a).
Proof. intros s s' what E. discriminate E. Qed.

Lemma aborts_emit (e : Event) : aborts_on_call (W := W) (emit e).
Proof. intros s s' what E. discriminate E. Qed.

(** A recorded SDK call that throws leaves its own event last. *)
Lemma aborts_call {A} (ev : Event) (op : W -> Outcome A * W) :
  is_sdk_call ev = true -> aborts_on_call (emit ev ;; sdk op).
Proof.
  intros Hev s s' what E. unfold bind, emit, sdk in E. simpl in E.
  destruct (op (world s)) as [[a | what0] w']; inversion E; subst.
  exists (trace s), ev. split; [reflexivity | exact Hev].
Qed.

Lemma aborts_wait_for_stop polls : aborts_on_call (W := W) (wait_for_stop polls).
Proof.
  induction polls as [|n IH]; simpl.
  - apply aborts_ret.
  - apply aborts_bind; [intros s s' what E; discriminate E|].
    intros [|]; [apply aborts_ret|].
    apply aborts_bind; [apply aborts_emit | intros _; exact IH].
Qed.

(** The inner [try] block of basic_teleop.cpp can only be left through a
    throwing SDK call. *)
Lemma setup_and_start_aborts_on_call a polls :
  aborts_on_call (W := W) (BasicTeleop.setup_and_start a polls).
Proof.
  unfold BasicTeleop.setup_and_start.
  apply aborts_bind; [apply aborts_call; reflexivity | intros teleop].
  repeat (apply aborts_bind;
          [first [ apply aborts_call; reflexivity
                 | apply aborts_emit
                 | apply aborts_wait_for_stop ]
          | intros ? ]).
  apply aborts_ret.
Qed.

End Abort.

(* ===================================================================== *)
(** ** Concrete runs                                                      *)
(* ===================================================================== *)

(** [testAixsLock] is the ladder applied to the truncated 64-bit
    difference of the two time points. *)
Remark testAixsLock_unfold :
  forall (W : Type) (SDK : TeleopSDK W) (ticks_per_second : Z)
         (teleop : Robot2RobotTeleop) (AxisCmd : AxisLockDefs)
         (startTimeSec currentTimeSec : Z),
    BasicFreeSpaceMotionTeleop.testAixsLock ticks_per_second teleop AxisCmd
      startTimeSec currentTimeSec
    = BasicFreeSpaceMotionTeleop.testAixsLock_at teleop AxisCmd
        (Z.quot (BasicFreeSpaceMotionTeleop.wrap64 (currentTimeSec - startTimeSec))
                ticks_per_second).
Proof. reflexivity. Qed.

(** With a nanosecond clock, 5.9 s after the start the first pattern is
    still pushed; 6 s after the start the second one is. *)
Example testAixsLock_truncates :
  pushed (trace (snd (BasicFreeSpaceMotionTeleop.testAixsLock 1000000000 0%nat
                        TestSDK.free_world 1000 5900001000
                        (TestSDK.boot TestSDK.healthy))))
    = [(0%nat, Spec.float_trans CD_TCP 0)]
  /\ pushed (trace (snd (BasicFreeSpaceMotionTeleop.testAixsLock 1000000000 0%nat
                           TestSDK.free_world 1000 6000001000
                           (TestSDK.boot TestSDK.healthy))))
    = [(0%nat, Spec.float_trans CD_TCP 1)].
Proof. split; reflexivity. Qed.

(** The literal inputs 0 s, 7 s, 63 s of the specification's test list. *)
Example testAixsLock_at_0_7_63 :
  pushed (trace (snd (BasicFreeSpaceMotionTeleop.testAixsLock_at 0%nat
                        TestSDK.free_world 0 (TestSDK.boot TestSDK.healthy))))
    = [(0%nat, mkAxisLockDefs CD_TCP (locks3 true true true) (locks3 false true true))]
  /\ pushed (trace (snd (BasicFreeSpaceMotionTeleop.testAixsLock_at 0%nat
                           TestSDK.free_world 7 (TestSDK.boot TestSDK.healthy))))
    = [(0%nat, mkAxisLockDefs CD_TCP (locks3 true true true) (locks3 true false true))]
  /\ pushed (trace (snd (BasicFreeSpaceMotionTeleop.testAixsLock_at 0%nat
                           TestSDK.free_world 63 (TestSDK.boot TestSDK.healthy))))
    = [(0%nat, mkAxisLockDefs CD_WORLD (locks3 true true false) (locks3 true true true))].
Proof. repeat split; reflexivity. Qed.

(** Toggling with the same key twice restores the lock booleans. *)
Example toggle_twice :
  forall (W : Type) (SDK : TeleopSDK W) (key : ascii) (cmd : AxisLockDefs)
         (s : Mach W),
    In key toggle_keys ->
    exists cmd' cmd'',
      BasicTeleop.console_switch key cmd s = (Returns cmd', s)
      /\ BasicTeleop.console_switch key cmd' s = (Returns cmd'', s)
      /\ lock_bits cmd'' = lock_bits cmd.
Proof.
  intros W SDK key cmd s H. destruct cmd as [c [o0 o1 o2] [t0 t1 t2]].
  simpl in H.
  repeat (destruct H as [H | H]); try contradiction; subst key;
    eexists; eexists; (split; [reflexivity|]); (split; [reflexivity|]);
    unfold BasicTeleop.toggle_trans, BasicTeleop.toggle_ori; simpl;
    rewrite ?negb_involutive; reflexivity.
Qed.

(** A whole single-arm session on the scripted SDK: the command line is
    accepted, the set-up calls are made in order, and [main] is left
    waiting for the stop flag. *)
Example main_runs :
  BasicTeleop.main
    [("l"%char, "L1"); ("r"%char, "R1"); ("c"%char, "lic.json")] 2
    (TestSDK.boot TestSDK.healthy)
  = (Returns Waiting,
     mkMach (TestSDK.mkWorld 1 [] 0 false TestSDK.free_world) false
       (map EvCout (BasicTeleop.banner (BasicTeleop.mkArgs "R1" "L1" "lic.json"))
        ++ [ EvConstruct "L1" "R1" "lic.json";
             EvCall 0%nat m_enable; EvCall 0%nat m_init;
             EvCall 0%nat m_setLocalNullSpacePosture;
             EvCall 0%nat m_setRemoteNullSpacePosture;
             EvCall 0%nat m_setRemoteMaxWrench;
             EvScheduler; EvSleep 3;
             EvLog info "Omni-Teleop will run in background ... ";
             EvMaxPriority; EvAddTask HP_periodic_teleop 1 99;
             EvMinPriority; EvAddTask LP_nonPeriodic_console 1000 1;
             EvStart; EvSleep 1; EvSleep 1; EvSleep 1 ])).
Proof. reflexivity. Qed.

(* ===================================================================== *)
(** ** Further properties of the timed axis-lock script                   *)
(* ===================================================================== *)

Lemma polled_app (a b : list Event) : polled (a ++ b) = polled a ++ polled b.
Proof.
  induction a as [|ev a IH]; [reflexivity|].
  destruct ev as [| t m | | | | | | | | | |]; simpl; try exact IH.
  destruct m; simpl; rewrite ?IH; reflexivity.
Qed.

(** Truncation toward zero: a difference below [(n + 1)] seconds of ticks
    casts to at most [n] seconds, also when it is negative. *)
Lemma duration_cast_upper (tps d n : Z) :
  0 < tps -> 0 <= n -> d < (n + 1) * tps -> Z.quot d tps <= n.
Proof.
  intros Ht Hn Hd.
  destruct (Z_lt_le_dec d 0) as [Hneg | Hpos].
  - assert (Z.quot d tps <= Z.quot 0 tps) as H
        by (apply Z.quot_le_mono; lia).
    rewrite Z.quot_0_l in H by lia. lia.
  - rewrite Z.quot_div_nonneg by lia.
    assert (d / tps < n + 1) by (apply Z.div_lt_upper_bound; lia). lia.
Qed.

Lemma duration_cast_lower (tps d n : Z) :
  0 < tps -> 0 <= n -> n * tps <= d -> n <= Z.quot d tps.
Proof.
  intros Ht Hn Hd.
  assert (0 <= d) by nia.
  rewrite Z.quot_div_nonneg by lia.
  apply Z.div_le_lower_bound; lia.
Qed.

Lemma wrap64_small (z : Z) :
  - 2 ^ 63 <= z < 2 ^ 63 -> BasicFreeSpaceMotionTeleop.wrap64 z = z.
Proof.
  intros H. unfold BasicFreeSpaceMotionTeleop.wrap64.
  rewrite Z.mod_small by lia. lia.
Qed.

(** X1: the windows of [testAixsLock] in clock time.  With a clock of
    [ticks_per_second] > 0 ticks per second and two time points whose
    difference fits the 64-bit tick count, the first pattern is pushed
    while less than six seconds have passed (also when the clock reads
    earlier than the start), window [k] (1 to 12) is pushed from [5k + 1]
    seconds up to, not including, [5k + 6] seconds, and everything is
    unlocked in WORLD from 66 seconds on. *)
Theorem testAixsLock_windows_in_clock_ticks :
  forall (W : Type) (SDK : TeleopSDK W) (ticks_per_second : Z)
         (teleop : Robot2RobotTeleop) (AxisCmd : AxisLockDefs)
         (startTimeSec currentTimeSec : Z) (s : Mach W),
    0 < ticks_per_second ->
    - 2 ^ 63 <= currentTimeSec - startTimeSec < 2 ^ 63 ->
    let d := currentTimeSec - startTimeSec in
    let out :=
      pushed (trace (snd (BasicFreeSpaceMotionTeleop.testAixsLock
                            ticks_per_second teleop AxisCmd
                            startTimeSec currentTimeSec s))) in
    (d < 6 * ticks_per_second ->
       out = pushed (trace s) ++ [(teleop, Spec.float_trans CD_TCP 0)])
    /\ (forall k : Z,
          1 <= k <= 12 ->
          (5 * k + 1) * ticks_per_second <= d < (5 * k + 6) * ticks_per_second ->
          out = pushed (trace s) ++ [(teleop, Spec.applyTimedScript (5 * k))])
    /\ (66 * ticks_per_second <= d ->
          out = pushed (trace s) ++ [(teleop, Spec.unlock_all CD_WORLD)]).
Proof.
  intros W SDK tps teleop AxisCmd start now s Ht Hfit d out.
  subst out. unfold BasicFreeSpaceMotionTeleop.testAixsLock,
    BasicFreeSpaceMotionTeleop.duration_cast_seconds.
  rewrite (wrap64_small _ Hfit).
  fold d. rewrite testAixsLock_at_pushed.
  set (q := Z.quot d tps).
  split; [|split].
  - intros Hd.
    assert (q <= 5) by (apply duration_cast_upper; lia).
    unfold Spec.applyTimedScript, Spec.schedule, Spec.lookup.
    decide_cmp; reflexivity.
  - intros k Hk [Hlo Hhi].
    assert (5 * k + 1 <= q) by (apply duration_cast_lower; lia).
    assert (q <= 5 * k + 5) by (apply duration_cast_upper; lia).
    unfold Spec.applyTimedScript, Spec.schedule, Spec.lookup.
    assert (k = 1 \/ k = 2 \/ k = 3 \/ k = 4 \/ k = 5 \/ k = 6 \/ k = 7 \/ k = 8 \/
            k = 9 \/ k = 10 \/ k = 11 \/ k = 12) as C by lia.
    repeat (destruct C as [C | C]); subst k; decide_cmp; reflexivity.
  - intros Hd.
    assert (66 <= q) by (apply duration_cast_lower; lia).
    unfold Spec.applyTimedScript, Spec.schedule, Spec.lookup.
    decide_cmp; reflexivity.
Qed.

Lemma testAixsLock_windows_in_clock_ticks_witness :
  0 < 1000 /\ - 2 ^ 63 <= 5900 - 0 < 2 ^ 63 /\ 5900 - 0 < 6 * 1000 /\
  pushed (trace (snd (BasicFreeSpaceMotionTeleop.testAixsLock
                        1000 0%nat TestSDK.free_world 0 5900
                        (TestSDK.boot TestSDK.healthy))))
  = pushed (trace (TestSDK.boot TestSDK.healthy))
    ++ [(0%nat, Spec.float_trans CD_TCP 0)].
Proof.
  split; [lia|]. split; [lia|]. split; [lia|].
  apply (testAixsLock_windows_in_clock_ticks TestSDK.World TestSDK.sdk 1000 0%nat
           TestSDK.free_world 0 5900 (TestSDK.boot TestSDK.healthy)); lia.
Defined.

(** When the difference of the two time points does not fit, it wraps
    around: with a nanosecond clock, a start at the smallest 64-bit value
    and a reading 66 seconds after zero give a negative difference, and the
    first pattern is pushed. *)
Example testAixsLock_wraps_on_overflow :
  BasicFreeSpaceMotionTeleop.wrap64 (66000000000 - (- 2 ^ 63))
    = 66000000000 - 2 ^ 63
  /\ pushed (trace (snd (BasicFreeSpaceMotionTeleop.testAixsLock 1000000000 0%nat
                           TestSDK.free_world (- 2 ^ 63) 66000000000
                           (TestSDK.boot TestSDK.healthy))))
     = [(0%nat, Spec.float_trans CD_TCP 0)].
Proof. split; reflexivity. Qed.

(** X2: the script exercises every axis in both frames.  For each frame
    and each axis index below three there is a second of the 65-second
    sequence at which exactly that translational axis floats, and one at
    which exactly that rotational axis floats. *)
Theorem timed_script_floats_every_axis :
  forall (W : Type) (SDK : TeleopSDK W) (teleop : Robot2RobotTeleop)
         (AxisCmd : AxisLockDefs) (s : Mach W) (c : CoordType) (i : nat),
    (i < 3)%nat ->
    exists e_trans e_ori : Z,
      0 <= e_trans <= 65 /\ 0 <= e_ori <= 65
      /\ pushed (trace (snd (BasicFreeSpaceMotionTeleop.testAixsLock_at
                               teleop AxisCmd e_trans s)))
         = pushed (trace s) ++ [(teleop, Spec.float_trans c i)]
      /\ pushed (trace (snd (BasicFreeSpaceMotionTeleop.testAixsLock_at
                               teleop AxisCmd e_ori s)))
         = pushed (trace s) ++ [(teleop, Spec.float_ori c i)].
Proof.
  intros W SDK teleop AxisCmd s c i Hi.
  assert (i = 0 \/ i = 1 \/ i = 2)%nat as C by lia.
  destruct c; destruct C as [-> | [-> | ->]].
  - exists 38, 53. rewrite !testAixsLock_at_pushed. repeat split; lia || reflexivity.
  - exists 43, 58. rewrite !testAixsLock_at_pushed. repeat split; lia || reflexivity.
  - exists 48, 63. rewrite !testAixsLock_at_pushed. repeat split; lia || reflexivity.
  - exists 3, 18. rewrite !testAixsLock_at_pushed. repeat split; lia || reflexivity.
  - exists 8, 23. rewrite !testAixsLock_at_pushed. repeat split; lia || reflexivity.
  - exists 13, 28. rewrite !testAixsLock_at_pushed. repeat split; lia || reflexivity.
Qed.

Lemma timed_script_floats_every_axis_witness :
  (1 < 3)%nat /\
  exists e_trans e_ori : Z,
    0 <= e_trans <= 65 /\ 0 <= e_ori <= 65
    /\ pushed (trace (snd (BasicFreeSpaceMotionTeleop.testAixsLock_at
                             0%nat TestSDK.free_world e_trans
                             (TestSDK.boot TestSDK.healthy))))
       = pushed (trace (TestSDK.boot TestSDK.healthy))
         ++ [(0%nat, Spec.float_trans CD_WORLD 1)]
    /\ pushed (trace (snd (BasicFreeSpaceMotionTeleop.testAixsLock_at
                             0%nat TestSDK.free_world e_ori
                             (TestSDK.boot TestSDK.healthy))))
       = pushed (trace (TestSDK.boot TestSDK.healthy))
         ++ [(0%nat, Spec.float_ori CD_WORLD 1)].
Proof.
  split; [lia|].
  apply (timed_script_floats_every_axis TestSDK.World TestSDK.sdk 0%nat
           TestSDK.free_world (TestSDK.boot TestSDK.healthy) CD_WORLD 1%nat).
  lia.
Defined.

(** X3: the caller and the session agree.  When the push returns,
    [testAixsLock] leaves in [AxisCmd] exactly the command it pushed, the
    only action is that push, and the stop flag is untouched; when the push
    throws, the exception leaves [testAixsLock] with the push as the last
    action. *)
Theorem testAixsLock_returns_what_it_pushed :
  forall (W : Type) (SDK : TeleopSDK W) (teleop : Robot2RobotTeleop)
         (AxisCmd : AxisLockDefs) (elapsedTimeSec : Z) (s : Mach W),
  exists (st : AxisLockDefs) (w' : W),
    (BasicFreeSpaceMotionTeleop.testAixsLock_at teleop AxisCmd elapsedTimeSec s
     = (Returns st,
        mkMach w' (g_stop_sched s)
               (trace s ++ [EvCall teleop (m_setLocalAxisLockCmd st)]))
     /\ sdk_setLocalAxisLockCmd teleop st (world s) = (Returns tt, w'))
    \/ (exists what,
          BasicFreeSpaceMotionTeleop.testAixsLock_at teleop AxisCmd elapsedTimeSec s
          = (Throws what,
             mkMach w' (g_stop_sched s)
                    (trace s ++ [EvCall teleop (m_setLocalAxisLockCmd st)]))
          /\ sdk_setLocalAxisLockCmd teleop st (world s) = (Throws what, w')).
Proof.
  intros W SDK teleop AxisCmd e s.
  exists (Spec.applyTimedScript (Z.max 0 (e - 1))).
  rewrite testAixsLock_at_run.
  unfold setLocalAxisLockCmd, bind, emit, sdk, ret; simpl.
  destruct (sdk_setLocalAxisLockCmd teleop _ (world s)) as [[[]|what] w'].
  - exists w'. left. split; reflexivity.
  - exists w'. right. exists what. split; reflexivity.
Qed.


(* ===================================================================== *)
(** ** What a computation leaves alone                                    *)
(* ===================================================================== *)

Section Preserves.
Context {W : Type} {SDK : TeleopSDK W}.
Variable I : bool -> list Event -> Prop.

Lemma preserves_ret {A} (a : A) : preserves (W := W) I (ret a).
Proof. intros s H. exact H. Qed.

Lemma preserves_throw {A} (what : string) : preserves (W := W) (A := A) I (throw what).
Proof. intros s H. exact H. Qed.

Lemma preserves_bind {A B} (c : M W A) (k : A -> M W B) :
  preserves I c -> (forall a, preserves I (k a)) -> preserves I (x <- c ;; k x).
Proof.
  intros Hc Hk s H. unfold bind.
  specialize (Hc s H). destruct (c s) as [[a | what] s1]; simpl in *.
  - exact (Hk a s1 Hc).
  - exact Hc.
Qed.

Lemma preserves_try_catch {A} (c : M W A) (h : string -> M W A) :
  preserves I c -> (forall what, preserves I (h what)) ->
  preserves I (try_catch c h).
Proof.
  intros Hc Hh s H. unfold try_catch.
  specialize (Hc s H). destruct (c s) as [[a | what] s1]; simpl in *.
  - exact Hc.
  - exact (Hh what s1 Hc).
Qed.

Lemma preserves_sdk {A} (op : W -> Outcome A * W) : preserves I (sdk op).
Proof.
  intros s H. unfold sdk. destruct (op (world s)) as [r w']. exact H.
Qed.

Lemma preserves_read : preserves (W := W) I read_g_stop_sched.
Proof. intros s H. exact H. Qed.

Lemma preserves_emit (e : Event) :
  (forall b tr, I b tr -> I b (tr ++ [e])) -> preserves (W := W) I (emit e).
Proof. intros He s H. simpl. apply He. exact H. Qed.

Lemma preserves_if {A} (b : bool) (c1 c2 : M W A) :
  preserves I c1 -> preserves I c2 -> preserves I (if b then c1 else c2).
Proof. destruct b; auto. Qed.

End Preserves.

(** Rules for a computation written with the SDK wrappers: every emitted
    event leaves a side condition on the invariant. *)
Ltac preserves_step :=
  first
    [ apply preserves_ret
    | apply preserves_throw
    | apply preserves_read
    | apply preserves_sdk
    | apply preserves_emit
    | apply preserves_try_catch; [|intros ?]
    | apply preserves_bind; [|intros ?]
    | apply preserves_if ].

Lemma runs_map_log lvl (l : list string) : runs (map (EvLog lvl) l) = [].
Proof. induction l; simpl; auto. Qed.

Lemma polled_map_log lvl (l : list string) : polled (map (EvLog lvl) l) = [].
Proof. induction l; simpl; auto. Qed.

Section ConsoleMore.
Context {W : Type} {SDK : TeleopSDK W}.

(** The value the key switch returns, for every key. *)
Lemma console_switch_value key cmd (s : Mach W) :
  exists evs,
    BasicTeleop.console_switch key cmd s
    = (Returns (key_effect key cmd), with_events s evs)
    /\ pushed evs = [] /\ polled evs = [] /\ runs evs = [].
Proof.
  destruct (in_dec ascii_dec key toggle_keys) as [Hin | Hin].
  - exists []. rewrite with_events_nil. split; [|auto].
    simpl in Hin.
    repeat (destruct Hin as [Hin | Hin]); try contradiction; subst key; reflexivity.
  - destruct (ascii_dec key "m"%char) as [-> | Hm].
    + exists (map (EvLog info) BasicTeleop.help_text).
      rewrite console_switch_help. split; [reflexivity|].
      rewrite pushed_map_log, polled_map_log, runs_map_log. auto.
    + exists [EvLog warn BasicTeleop.invalid_command].
      rewrite (console_switch_default key cmd s Hin Hm).
      split; [|auto]. f_equal. f_equal.
      destruct key as [[] [] [] [] [] [] [] []];
        try reflexivity; exfalso;
        first [ apply Hm; reflexivity | apply Hin; simpl; tauto ].
Qed.

End ConsoleMore.


(* ===================================================================== *)
(** ** Further properties of the console task                             *)
(* ===================================================================== *)

(** X4: a toggle key pressed twice restores all six lock booleans; what
    remains of the two presses is the frame of the key. *)
Theorem same_key_twice_restores_locks :
  forall (W : Type) (SDK : TeleopSDK W) (key : ascii) (cmd : AxisLockDefs)
         (s : Mach W),
    In key toggle_keys ->
    exists c1 c2 : AxisLockDefs,
      BasicTeleop.console_switch key cmd s = (Returns c1, s)
      /\ BasicTeleop.console_switch key c1 s = (Returns c2, s)
      /\ c2 = set_coord cmd (key_frame key).
Proof.
  intros W SDK key cmd s H. destruct cmd as [c [o0 o1 o2] [t0 t1 t2]].
  simpl in H.
  repeat (destruct H as [H | H]); try contradiction; subst key;
    eexists; eexists; (split; [reflexivity|]); (split; [reflexivity|]);
    unfold BasicTeleop.toggle_trans, BasicTeleop.toggle_ori, set_coord; simpl;
    rewrite ?negb_involutive; reflexivity.
Qed.

Lemma same_key_twice_restores_locks_witness :
  In "q"%char toggle_keys /\
  exists c1 c2 : AxisLockDefs,
    BasicTeleop.console_switch "q"%char (Spec.float_ori CD_TCP 1)
                               (TestSDK.boot TestSDK.healthy)
      = (Returns c1, TestSDK.boot TestSDK.healthy)
    /\ BasicTeleop.console_switch "q"%char c1 (TestSDK.boot TestSDK.healthy)
      = (Returns c2, TestSDK.boot TestSDK.healthy)
    /\ c2 = set_coord (Spec.float_ori CD_TCP 1) (key_frame "q"%char).
Proof.
  assert (In "q"%char toggle_keys) as H by (simpl; tauto).
  split; [exact H|].
  exact (same_key_twice_restores_locks TestSDK.World TestSDK.sdk "q"%char
           (Spec.float_ori CD_TCP 1) (TestSDK.boot TestSDK.healthy) H).
Defined.

(** X5: the two frames share one set of locks.  A lowercase key and its
    uppercase partner flip the same boolean: from the same command they
    give the same six lock booleans, in the WORLD and in the TCP frame. *)
Theorem upper_and_lower_key_flip_the_same_lock :
  forall (W : Type) (SDK : TeleopSDK W) (key : ascii) (cmd : AxisLockDefs)
         (s : Mach W),
    In key world_keys ->
    exists c_lower c_upper : AxisLockDefs,
      BasicTeleop.console_switch key cmd s = (Returns c_lower, s)
      /\ BasicTeleop.console_switch (upper_key key) cmd s = (Returns c_upper, s)
      /\ lock_bits c_lower = lock_bits c_upper
      /\ coord c_lower = CD_WORLD
      /\ coord c_upper = CD_TCP.
Proof.
  intros W SDK key cmd s H. simpl in H.
  repeat (destruct H as [H | H]); try contradiction; subst key;
    eexists; eexists; repeat split; reflexivity.
Qed.

Lemma upper_and_lower_key_flip_the_same_lock_witness :
  In "z"%char world_keys /\
  exists c_lower c_upper : AxisLockDefs,
    BasicTeleop.console_switch "z"%char TestSDK.free_world
                               (TestSDK.boot TestSDK.healthy)
      = (Returns c_lower, TestSDK.boot TestSDK.healthy)
    /\ BasicTeleop.console_switch (upper_key "z"%char) TestSDK.free_world
                                  (TestSDK.boot TestSDK.healthy)
      = (Returns c_upper, TestSDK.boot TestSDK.healthy)
    /\ lock_bits c_lower = lock_bits c_upper
    /\ coord c_lower = CD_WORLD
    /\ coord c_upper = CD_TCP.
Proof.
  assert (In "z"%char world_keys) as H by (simpl; tauto).
  split; [exact H|].
  exact (upper_and_lower_key_flip_the_same_lock TestSDK.World TestSDK.sdk "z"%char
           TestSDK.free_world (TestSDK.boot TestSDK.healthy) H).
Defined.

(** X6: toggle keys commute on the locks.  Two toggle keys pressed in
    either order leave the same six lock booleans; the frame is that of the
    key pressed last. *)
Theorem toggle_keys_commute_on_locks :
  forall (W : Type) (SDK : TeleopSDK W) (k1 k2 : ascii) (cmd : AxisLockDefs)
         (s : Mach W),
    In k1 toggle_keys -> In k2 toggle_keys ->
    exists a ab b ba : AxisLockDefs,
      BasicTeleop.console_switch k1 cmd s = (Returns a, s)
      /\ BasicTeleop.console_switch k2 a s = (Returns ab, s)
      /\ BasicTeleop.console_switch k2 cmd s = (Returns b, s)
      /\ BasicTeleop.console_switch k1 b s = (Returns ba, s)
      /\ lock_bits ab = lock_bits ba
      /\ coord ab = key_frame k2
      /\ coord ba = key_frame k1.
Proof.
  intros W SDK k1 k2 cmd s H1 H2. destruct cmd as [c [o0 o1 o2] [t0 t1 t2]].
  simpl in H1, H2.
  repeat (destruct H1 as [H1 | H1]); try contradiction; subst k1;
    repeat (destruct H2 as [H2 | H2]); try contradiction; subst k2;
    do 4 eexists; repeat split; reflexivity.
Qed.

Lemma toggle_keys_commute_on_locks_witness :
  In "x"%char toggle_keys /\ In "E"%char toggle_keys /\
  exists a ab b ba : AxisLockDefs,
    BasicTeleop.console_switch "x"%char TestSDK.free_world
                               (TestSDK.boot TestSDK.healthy)
      = (Returns a, TestSDK.boot TestSDK.healthy)
    /\ BasicTeleop.console_switch "E"%char a (TestSDK.boot TestSDK.healthy)
      = (Returns ab, TestSDK.boot TestSDK.healthy)
    /\ BasicTeleop.console_switch "E"%char TestSDK.free_world
                                  (TestSDK.boot TestSDK.healthy)
      = (Returns b, TestSDK.boot TestSDK.healthy)
    /\ BasicTeleop.console_switch "x"%char b (TestSDK.boot TestSDK.healthy)
      = (Returns ba, TestSDK.boot TestSDK.healthy)
    /\ lock_bits ab = lock_bits ba
    /\ coord ab = key_frame "E"%char
    /\ coord ba = key_frame "x"%char.
Proof.
  assert (In "x"%char toggle_keys) as H1 by (simpl; tauto).
  assert (In "E"%char toggle_keys) as H2 by (simpl; tauto).
  split; [exact H1|]. split; [exact H2|].
  exact (toggle_keys_commute_on_locks TestSDK.World TestSDK.sdk "x"%char "E"%char
           TestSDK.free_world (TestSDK.boot TestSDK.healthy) H1 H2).
Defined.


Lemma last_cons {A} (l : list A) :
  forall a d : A, last (a :: l) d = last l a.
Proof.
  induction l as [|b l IH]; intros a d; [reflexivity|].
  change (last (a :: b :: l) d) with (last (b :: l) d).
  rewrite (IH b d), (IH b a). reflexivity.
Qed.

Section ConsoleLoop.
Context {W : Type} {SDK : TeleopSDK W}.

(** One pass through the loop body when the push returns. *)
Lemma console_iteration_returns teleop cmd userInput (s : Mach W) :
  (forall c w, exists w', sdk_setLocalAxisLockCmd teleop c w = (Returns tt, w')) ->
  exists s',
    BasicTeleop.console_iteration teleop cmd userInput s
    = (Returns (key_effect (BasicTeleop.first_char userInput) cmd), s')
    /\ g_stop_sched s' = g_stop_sched s
    /\ pushed (trace s')
       = pushed (trace s)
         ++ [(teleop, key_effect (BasicTeleop.first_char userInput) cmd)].
Proof.
  intros Hpush.
  destruct (console_switch_value (BasicTeleop.first_char userInput) cmd s)
    as (evs & Esw & Pe & _ & _).
  set (c1 := key_effect (BasicTeleop.first_char userInput) cmd) in *.
  destruct (Hpush c1 (world s)) as [w' Hw].
  unfold BasicTeleop.console_iteration. unfold bind at 1. rewrite Esw.
  unfold setLocalAxisLockCmd, BasicTeleop.log_status, bind, emit, sdk, ret,
    with_events; simpl.
  rewrite Hw. simpl. eexists. split; [reflexivity|]. simpl.
  split; [reflexivity|].
  rewrite !pushed_app, Pe. simpl. rewrite !app_nil_r. reflexivity.
Qed.

Lemma console_loop_continues teleop cin (more : list string) :
  (forall c w, exists w', sdk_setLocalAxisLockCmd teleop c w = (Returns tt, w')) ->
  forall cmd (s : Mach W),
    g_stop_sched s = false ->
    exists s',
      BasicTeleop.console_loop teleop cmd (cin ++ more) s
      = BasicTeleop.console_loop teleop
          (last (key_states cmd (map BasicTeleop.first_char cin)) cmd) more s'
      /\ g_stop_sched s' = false
      /\ pushed (trace s')
         = pushed (trace s)
           ++ map (pair teleop) (key_states cmd (map BasicTeleop.first_char cin)).
Proof.
  intros Hpush. induction cin as [|userInput rest IH]; intros cmd s Hstop.
  - exists s. simpl. rewrite app_nil_r. auto.
  - destruct (console_iteration_returns teleop cmd userInput s Hpush)
      as (s1 & E1 & F1 & P1).
    rewrite Hstop in F1.
    destruct (IH (key_effect (BasicTeleop.first_char userInput) cmd) s1 F1)
      as (s2 & E2 & F2 & P2).
    exists s2. split; [|split; [exact F2|]].
    + assert (last (key_states cmd (map BasicTeleop.first_char (userInput :: rest)))
                   cmd
              = last (key_states (key_effect (BasicTeleop.first_char userInput) cmd)
                                 (map BasicTeleop.first_char rest))
                     (key_effect (BasicTeleop.first_char userInput) cmd)) as L
        by (cbn [map key_states]; apply last_cons).
      rewrite L.
      change ((userInput :: rest) ++ more) with (userInput :: (rest ++ more)).
      cbn [BasicTeleop.console_loop]. unfold bind at 1.
      unfold read_g_stop_sched. rewrite Hstop.
      unfold bind at 1. rewrite E1. exact E2.
    + rewrite P2, P1. simpl. rewrite <- app_assoc. reflexivity.
Qed.

End ConsoleLoop.

(** X7: the console task replays the keys in order.  When the session
    state can be read, every push returns and the stop flag is clear, then
    after any lines [cin] the task is back at the head of its loop, with
    the stop flag still clear, having pushed exactly one command per line
    read, the i-th being the command reached after the first i keys from
    the state read at the start, and holding the last of them; it goes on
    from there with whatever input follows. *)
Theorem console_task_pushes_one_command_per_line :
  forall (W : Type) (SDK : TeleopSDK W) (teleop : Robot2RobotTeleop)
         (cin more : list string) (s : Mach W) (cmd0 : AxisLockDefs) (w0 : W),
    g_stop_sched s = false ->
    sdk_getLocalAxisLockState teleop (world s) = (Returns cmd0, w0) ->
    (forall c w, exists w', sdk_setLocalAxisLockCmd teleop c w = (Returns tt, w')) ->
    exists s' : Mach W,
      BasicTeleop.periodicConsoleTask teleop (cin ++ more) s
      = BasicTeleop.console_loop teleop
          (last (key_states cmd0 (map BasicTeleop.first_char cin)) cmd0) more s'
      /\ g_stop_sched s' = false
      /\ pushed (trace s')
         = pushed (trace s)
           ++ map (pair teleop) (key_states cmd0 (map BasicTeleop.first_char cin)).
Proof.
  intros W SDK teleop cin more s cmd0 w0 Hstop Hget Hpush.
  destruct (console_loop_continues teleop cin more Hpush cmd0
              (mkMach w0 false (trace s ++ [EvCall teleop m_getLocalAxisLockState]))
              eq_refl) as (s' & E & F & P).
  exists s'. split; [|split; [exact F|]].
  - unfold BasicTeleop.periodicConsoleTask, getLocalAxisLockState.
    unfold bind at 1. unfold bind at 1. unfold emit, sdk. simpl.
    rewrite Hget, Hstop. exact E.
  - rewrite P. simpl. rewrite pushed_app. simpl. rewrite app_nil_r. reflexivity.
Qed.

Lemma console_task_pushes_one_command_per_line_witness :
  exists s' : Mach unit,
    BasicTeleop.periodicConsoleTask 0%nat (["x"; "m"; "Q"; ""] ++ ["x"; "k"])
                                    SteadySDK.boot
    = BasicTeleop.console_loop 0%nat
        (last (key_states (Spec.unlock_all CD_WORLD)
                          (map BasicTeleop.first_char ["x"; "m"; "Q"; ""]))
              (Spec.unlock_all CD_WORLD))
        ["x"; "k"] s'
    /\ g_stop_sched s' = false
    /\ pushed (trace s')
       = pushed (trace SteadySDK.boot)
         ++ map (pair 0%nat)
                (key_states (Spec.unlock_all CD_WORLD)
                            (map BasicTeleop.first_char ["x"; "m"; "Q"; ""])).
Proof.
  apply (console_task_pushes_one_command_per_line unit SteadySDK.sdk 0%nat
           ["x"; "m"; "Q"; ""] ["x"; "k"] SteadySDK.boot
           (Spec.unlock_all CD_WORLD) tt).
  - reflexivity.
  - reflexivity.
  - intros c w. exists w. reflexivity.
Defined.

(** X8: the console task has no exception handler.  An exception from
    [getLocalAxisLockState] ends the task before anything is pushed; with
    the stop flag clear, an exception from the push of a line ends the task
    with that push as its last action, the rest of the input unread and the
    stop flag still clear. *)
Theorem console_task_lets_exceptions_escape :
  forall (W : Type) (SDK : TeleopSDK W) (teleop : Robot2RobotTeleop),
    (forall (cin : list string) (s : Mach W) (what : string) (w' : W),
        sdk_getLocalAxisLockState teleop (world s) = (Throws what, w') ->
        BasicTeleop.periodicConsoleTask teleop cin s
        = (Throws what,
           mkMach w' (g_stop_sched s)
                  (trace s ++ [EvCall teleop m_getLocalAxisLockState])))
    /\ (forall (cmd : AxisLockDefs) (userInput : string) (rest : list string)
               (s : Mach W) (what : string) (w' : W),
          g_stop_sched s = false ->
          sdk_setLocalAxisLockCmd teleop
            (key_effect (BasicTeleop.first_char userInput) cmd) (world s)
          = (Throws what, w') ->
          exists evs : list Event,
            BasicTeleop.console_loop teleop cmd (userInput :: rest) s
            = (Throws what,
               mkMach w' false
                 (trace s ++ evs ++
                  [EvCall teleop
                     (m_setLocalAxisLockCmd
                        (key_effect (BasicTeleop.first_char userInput) cmd))]))
            /\ pushed evs = []).
Proof.
  intros W SDK teleop. split.
  - intros cin s what w' Hget.
    unfold BasicTeleop.periodicConsoleTask, getLocalAxisLockState.
    unfold bind at 1. unfold bind at 1. unfold emit, sdk. simpl.
    rewrite Hget. reflexivity.
  - intros cmd userInput rest s what w' Hstop Hpush.
    destruct (console_switch_value (BasicTeleop.first_char userInput) cmd s)
      as (evs & Esw & Pe & _ & _).
    exists evs. split; [|exact Pe].
    cbn [BasicTeleop.console_loop]. unfold bind at 1.
    unfold read_g_stop_sched. rewrite Hstop.
    unfold bind at 1. unfold BasicTeleop.console_iteration.
    unfold bind at 1. rewrite Esw.
    unfold setLocalAxisLockCmd, bind, emit, sdk, with_events; simpl.
    rewrite Hpush, Hstop. rewrite <- app_assoc. reflexivity.
Qed.

Lemma console_task_lets_exceptions_escape_witness :
  BasicTeleop.periodicConsoleTask 0%nat ["x"; "y"] (CountdownSDK.boot 0)
  = (Throws "sdk error",
     mkMach 0%nat false [EvCall 0%nat m_getLocalAxisLockState])
  /\ exists evs : list Event,
       BasicTeleop.console_loop 0%nat (Spec.unlock_all CD_WORLD) ["x"; "y"]
                                (CountdownSDK.boot 0)
       = (Throws "sdk error",
          mkMach 0%nat false
            (trace (CountdownSDK.boot 0) ++ evs ++
             [EvCall 0%nat
                (m_setLocalAxisLockCmd
                   (key_effect (BasicTeleop.first_char "x")
                               (Spec.unlock_all CD_WORLD)))]))
       /\ pushed evs = [].
Proof.
  destruct (console_task_lets_exceptions_escape nat CountdownSDK.sdk 0%nat)
    as [Hget Hpush].
  split.
  - apply (Hget ["x"; "y"] (CountdownSDK.boot 0) "sdk error" 0%nat). reflexivity.
  - apply (Hpush (Spec.unlock_all CD_WORLD) "x" ["y"] (CountdownSDK.boot 0)
             "sdk error" 0%nat); reflexivity.
Defined.

Section ConsoleIdle.
Context {W : Type} {SDK : TeleopSDK W}.
Variables (b0 : bool) (q0 r0 : list Robot2RobotTeleop).

(** The stop flag, the polls and the runs seen so far. *)
Let control_view : bool -> list Event -> Prop :=
  fun b tr => b = b0 /\ polled tr = q0 /\ runs tr = r0.

Ltac control_side :=
  let b := fresh "b" in let tr := fresh "tr" in
  intros b tr (? & ? & ?); unfold control_view;
  rewrite polled_app, runs_app; simpl; rewrite !app_nil_r; auto.

Lemma console_switch_idle key cmd :
  preserves (W := W) control_view (BasicTeleop.console_switch key cmd).
Proof.
  intros s (Hb & Hq & Hr).
  destruct (console_switch_value key cmd s) as (evs & E & _ & Qe & Re).
  rewrite E. unfold control_view, with_events; simpl.
  rewrite polled_app, runs_app, Qe, Re, !app_nil_r. auto.
Qed.

Lemma console_iteration_idle teleop cmd userInput :
  preserves (W := W) control_view
            (BasicTeleop.console_iteration teleop cmd userInput).
Proof.
  unfold BasicTeleop.console_iteration.
  apply preserves_bind; [apply console_switch_idle | intros c].
  unfold setLocalAxisLockCmd, BasicTeleop.log_status.
  repeat (preserves_step; try control_side).
Qed.

Lemma console_loop_idle teleop cin :
  forall cmd, preserves (W := W) control_view
                        (BasicTeleop.console_loop teleop cmd cin).
Proof.
  induction cin as [|userInput rest IH]; intros cmd; cbn [BasicTeleop.console_loop].
  - repeat preserves_step.
  - apply preserves_bind; [apply preserves_read | intros stop].
    apply preserves_if; [apply preserves_ret|].
    apply preserves_bind; [apply console_iteration_idle | intros c; apply IH].
Qed.

Lemma periodicConsoleTask_idle teleop cin :
  preserves (W := W) control_view (BasicTeleop.periodicConsoleTask teleop cin).
Proof.
  unfold BasicTeleop.periodicConsoleTask, getLocalAxisLockState.
  apply preserves_bind; [|intros c; apply console_loop_idle].
  repeat (preserves_step; try control_side).
Qed.

End ConsoleIdle.

(** X9: the console task leaves the control side alone.  Whatever the
    input and however the SDK answers, it never writes the stop flag and
    never calls [isOperational()] or [run()]. *)
Theorem console_task_leaves_control_alone :
  forall (W : Type) (SDK : TeleopSDK W) (teleop : Robot2RobotTeleop)
         (cin : list string) (s : Mach W),
    g_stop_sched (snd (BasicTeleop.periodicConsoleTask teleop cin s))
      = g_stop_sched s
    /\ polled (trace (snd (BasicTeleop.periodicConsoleTask teleop cin s)))
       = polled (trace s)
    /\ runs (trace (snd (BasicTeleop.periodicConsoleTask teleop cin s)))
       = runs (trace s).
Proof.
  intros W SDK teleop cin s.
  apply (periodicConsoleTask_idle (g_stop_sched s) (polled (trace s))
           (runs (trace s)) teleop cin s).
  repeat split.
Qed.

(** X10: a fault found by the control task silences the console.  After a
    tick in which the session reported a fault, a console loop that tests
    the stop flag reads no line and pushes nothing. *)
Theorem fault_tick_silences_console :
  forall (W : Type) (SDK : TeleopSDK W) (teleop console_teleop : Robot2RobotTeleop)
         (cmd : AxisLockDefs) (cin : list string) (s : Mach W) (w1 : W),
    sdk_isOperational teleop (world s) = (Returns false, w1) ->
    BasicTeleop.console_loop console_teleop cmd cin
      (snd (BasicTeleop.periodicTeleopTask teleop s))
    = (Returns cmd,
       mkMach w1 true
              (trace s ++ [EvCall teleop m_isOperational;
                           EvCerr (fault_message ++ newline)])).
Proof.
  intros W SDK teleop console_teleop cmd cin s w1 H.
  rewrite periodicTeleopTask_run, H. simpl.
  destruct cin; reflexivity.
Qed.

Lemma fault_tick_silences_console_witness :
  BasicTeleop.console_loop 1%nat TestSDK.free_world ["x"; "Y"]
    (snd (BasicTeleop.periodicTeleopTask 1%nat (TestSDK.boot TestSDK.right_faulted)))
  = (Returns TestSDK.free_world,
     mkMach TestSDK.right_faulted true
            (trace (TestSDK.boot TestSDK.right_faulted)
             ++ [EvCall 1%nat m_isOperational; EvCerr (fault_message ++ newline)])).
Proof.
  apply (fault_tick_silences_console TestSDK.World TestSDK.sdk 1%nat 1%nat
           TestSDK.free_world ["x"; "Y"] (TestSDK.boot TestSDK.right_faulted)
           TestSDK.right_faulted).
  reflexivity.
Defined.


(* ===================================================================== *)
(** ** Further properties of the control task                             *)
(* ===================================================================== *)

(** X11: when a tick sets the stop flag.  The single-arm callback always
    returns, and after it the stop flag is set exactly when it was set
    before or the tick was not a clean one (the poll returned true and
    [run()] returned). *)
Theorem tick_sets_stop_flag_iff :
  forall (W : Type) (SDK : TeleopSDK W) (teleop : Robot2RobotTeleop) (s : Mach W),
    fst (BasicTeleop.periodicTeleopTask teleop s) = Returns tt
    /\ (g_stop_sched (snd (BasicTeleop.periodicTeleopTask teleop s)) = true
        <-> g_stop_sched s = true
            \/ ~ (exists w1 w2 : W,
                     sdk_isOperational teleop (world s) = (Returns true, w1)
                     /\ sdk_run teleop w1 = (Returns tt, w2))).
Proof.
  intros W SDK teleop s.
  split; [apply periodicTeleopTask_returns|].
  rewrite periodicTeleopTask_run.
  destruct (sdk_isOperational teleop (world s)) as [[[]|what] w1] eqn:Ep.
  - destruct (sdk_run teleop w1) as [[[]|what] w2] eqn:Er; simpl.
    + split; [tauto|]. intros [H | H]; [exact H|].
      exfalso. apply H. exists w1, w2. split; [reflexivity | exact Er].
    + split; [|reflexivity]. intros _. right.
      intros (v1 & v2 & E1 & E2). inversion E1; subst v1.
      rewrite Er in E2. discriminate E2.
  - simpl. split; [|reflexivity]. intros _. right.
    intros (v1 & v2 & E1 & _). discriminate E1.
  - simpl. split; [|reflexivity]. intros _. right.
    intros (v1 & v2 & E1 & _). discriminate E1.
Qed.

(** X12: every tick polls once and runs at most once.  Over [n]
    invocations the single-arm callback never throws, calls
    [isOperational()] exactly [n] times and [run()] at most [n] times, all
    on its own session, and never pushes an axis-lock command. *)
Theorem ticks_poll_once_and_run_at_most_once :
  forall (W : Type) (SDK : TeleopSDK W) (n : nat) (teleop : Robot2RobotTeleop)
         (s : Mach W),
  exists m : nat,
    (m <= n)%nat
    /\ fst (BasicTeleop.ticks n teleop s) = Returns tt
    /\ polled (trace (snd (BasicTeleop.ticks n teleop s)))
       = polled (trace s) ++ repeat teleop n
    /\ runs (trace (snd (BasicTeleop.ticks n teleop s)))
       = runs (trace s) ++ repeat teleop m
    /\ pushed (trace (snd (BasicTeleop.ticks n teleop s))) = pushed (trace s).
Proof.
  intros W SDK n teleop. induction n as [|n IH]; intros s.
  - exists 0%nat. simpl. rewrite !app_nil_r. auto.
  - assert (exists m1 s1,
               (m1 <= 1)%nat
               /\ BasicTeleop.periodicTeleopTask teleop s = (Returns tt, s1)
               /\ polled (trace s1) = polled (trace s) ++ [teleop]
               /\ runs (trace s1) = runs (trace s) ++ repeat teleop m1
               /\ pushed (trace s1) = pushed (trace s)) as (m1 & s1 & L1 & E1 & P1 & R1 & U1).
    { rewrite periodicTeleopTask_run.
      destruct (sdk_isOperational teleop (world s)) as [[[]|what] w1].
      - destruct (sdk_run teleop w1) as [[[]|what] w2];
          exists 1%nat; eexists; (split; [lia|]); (split; [reflexivity|]); simpl;
          rewrite polled_app, runs_app, pushed_app; simpl;
          rewrite ?app_nil_r; auto.
      - exists 0%nat; eexists; (split; [lia|]); (split; [reflexivity|]); simpl;
          rewrite polled_app, runs_app, pushed_app; simpl;
          rewrite ?app_nil_r; auto.
      - exists 0%nat; eexists; (split; [lia|]); (split; [reflexivity|]); simpl;
          rewrite polled_app, runs_app, pushed_app; simpl;
          rewrite ?app_nil_r; auto. }
    destruct (IH s1) as (m & L & E & P & R & U).
    exists (m1 + m)%nat.
    cbn [BasicTeleop.ticks]. unfold bind. rewrite E1.
    split; [lia|]. split; [exact E|].
    rewrite P, R, U, P1, R1, U1, repeat_app, <- !app_assoc. auto.
Qed.

(** X13: a steady session is run in every tick.  When the session always
    reports operational and [run()] always returns, [n] invocations of the
    callback are [n] times a poll followed by a run, and the stop flag
    keeps its value. *)
Theorem steady_session_runs_every_tick :
  forall (W : Type) (SDK : TeleopSDK W) (n : nat) (teleop : Robot2RobotTeleop)
         (s : Mach W),
    (forall w, exists w', sdk_isOperational teleop w = (Returns true, w')) ->
    (forall w, exists w', sdk_run teleop w = (Returns tt, w')) ->
    exists w' : W,
      BasicTeleop.ticks n teleop s
      = (Returns tt,
         mkMach w' (g_stop_sched s)
                (trace s ++
                 List.concat (repeat [EvCall teleop m_isOperational; EvCall teleop m_run]
                                n))).
Proof.
  intros W SDK n teleop s Hop Hrun. revert s.
  induction n as [|n IH]; intros s.
  - exists (world s). simpl. rewrite app_nil_r. destruct s; reflexivity.
  - destruct (Hop (world s)) as [w1 E1]. destruct (Hrun w1) as [w2 E2].
    destruct (IH (mkMach w2 (g_stop_sched s)
                         (trace s ++ [EvCall teleop m_isOperational;
                                      EvCall teleop m_run]))) as [w' E].
    exists w'. cbn [BasicTeleop.ticks]. unfold bind.
    rewrite periodicTeleopTask_run, E1, E2. rewrite E. simpl.
    rewrite <- app_assoc. reflexivity.
Qed.

Lemma steady_session_runs_every_tick_witness :
  exists w' : unit,
    BasicTeleop.ticks 3 0%nat SteadySDK.boot
    = (Returns tt,
       mkMach w' (g_stop_sched SteadySDK.boot)
              (trace SteadySDK.boot ++
               List.concat (repeat [EvCall 0%nat m_isOperational; EvCall 0%nat m_run] 3))).
Proof.
  apply (steady_session_runs_every_tick unit SteadySDK.sdk 3 0%nat SteadySDK.boot).
  - intros w. exists w. reflexivity.
  - intros w. exists w. reflexivity.
Defined.



(* ===================================================================== *)
(** ** Further properties of [main]                                       *)
(* ===================================================================== *)

Section MainMore.
Context {W : Type} {SDK : TeleopSDK W}.

(** The option loop of basic_teleop.cpp: one unhandled value anywhere ends
    in the usage text, otherwise each string is the last argument given
    for its flag. *)
Lemma getopt_loop_final opts :
  forall (a : BasicTeleop.Args) (k : BasicTeleop.Args -> M W MainResult)
         (s : Mach W),
    BasicTeleop.getopt_loop opts a k s
    = if forallb handled opts
      then k (final_args opts (BasicTeleop.remoteSN a) (BasicTeleop.localSN a)
                         (BasicTeleop.licCfgPath a)) s
      else (Returns (Exited 1), with_events s (map EvCout usage)).
Proof.
  induction opts as [|[opt optarg] rest IH]; intros a k s.
  - destruct a; reflexivity.
  - rewrite getopt_loop_cons. unfold final_args.
    cbn [forallb last_optarg]. unfold handled at 1. cbn [fst].
    destruct (Ascii.eqb_spec opt "r"); [subst opt; rewrite IH; reflexivity|].
    destruct (Ascii.eqb_spec opt "l"); [subst opt; rewrite IH; reflexivity|].
    destruct (Ascii.eqb_spec opt "c"); [subst opt; rewrite IH; reflexivity|].
    cbn [orb andb]. apply usage_exit.
Qed.

(** The wait loop only sleeps; it is left exactly when the stop flag is
    set. *)
Lemma wait_for_stop_run polls (s : Mach W) :
  exists n : nat,
    wait_for_stop polls s
    = (Returns (g_stop_sched s && negb (Nat.eqb polls 0)),
       with_events s (repeat (EvSleep 1) n)).
Proof.
  revert s. induction polls as [|p IH]; intros s.
  - exists 0%nat. simpl. rewrite with_events_nil, andb_false_r. reflexivity.
  - cbn [wait_for_stop]. unfold bind at 1. unfold read_g_stop_sched.
    destruct (g_stop_sched s) eqn:F.
    + exists 0%nat. simpl. rewrite with_events_nil. reflexivity.
    + unfold bind, sleep_for, emit.
      destruct (IH (mkMach (world s) (g_stop_sched s) (trace s ++ [EvSleep 1])))
        as [n E].
      rewrite E. simpl. rewrite F. simpl. exists (S n).
      unfold with_events. simpl. rewrite F, <- app_assoc. reflexivity.
Qed.

Lemma not_start_in_sleeps n : ~ In EvStart (repeat (EvSleep 1) n).
Proof. intros H. apply repeat_spec in H. discriminate H. Qed.

Lemma pushed_map_cout (l : list string) : pushed (map EvCout l) = [].
Proof. induction l; simpl; auto. Qed.

Lemma not_start_in_cout l : ~ In EvStart (map EvCout l).
Proof. induction l; simpl; [tauto|]. intros [H | H]; [discriminate H | tauto]. Qed.

Ltac dead_end :=
  simpl; eexists; split; [rewrite <- ?app_assoc; simpl; reflexivity|];
  right; simpl; intuition discriminate.

(** Every way through the inner [try] block of basic_teleop.cpp: either
    every call before [Start] returned and the block did exactly the
    start-up sequence first, or [Start] was not reached. *)
Lemma setup_and_start_outcomes a polls (s : Mach W) :
  exists evs : list Event,
    trace (snd (BasicTeleop.setup_and_start a polls s)) = trace s ++ evs
    /\ ((exists teleop hp lp w' rest,
            startup_returned a teleop hp lp (world s) w'
            /\ evs = startup_calls a teleop hp lp ++ rest)
        \/ ~ In EvStart evs).
Proof.
  unfold BasicTeleop.setup_and_start, construct, enable, init,
    setLocalNullSpacePosture, setRemoteNullSpacePosture, setRemoteMaxWrench,
    Scheduler, max_priority, min_priority, AddTask, Start, sleep_for, log.
  unfold bind, emit, sdk, ret. simpl.
  set (l := BasicTeleop.localSN a). set (r := BasicTeleop.remoteSN a).
  set (c := BasicTeleop.licCfgPath a).
  destruct (sdk_construct l r c (world s)) as [[t|what] w1] eqn:E1; simpl;
    [|dead_end].
  destruct (sdk_enable t w1) as [[[]|what] w2] eqn:E2; simpl; [|dead_end].
  destruct (sdk_init t w2) as [[[]|what] w3] eqn:E3; simpl; [|dead_end].
  destruct (sdk_setLocalNullSpacePosture t w3) as [[[]|what] w4] eqn:E4; simpl;
    [|dead_end].
  destruct (sdk_setRemoteNullSpacePosture t w4) as [[[]|what] w5] eqn:E5; simpl;
    [|dead_end].
  destruct (sdk_setRemoteMaxWrench t w5) as [[[]|what] w6] eqn:E6; simpl;
    [|dead_end].
  destruct (sdk_Scheduler w6) as [[[]|what] w7] eqn:E7; simpl; [|dead_end].
  destruct (sdk_max_priority w7) as [[hp|what] w8] eqn:E8; simpl; [|dead_end].
  destruct (sdk_AddTask HP_periodic_teleop 1 hp w8) as [[[]|what] w9] eqn:E9; simpl;
    [|dead_end].
  destruct (sdk_min_priority w9) as [[lp|what] w10] eqn:E10; simpl; [|dead_end].
  destruct (sdk_AddTask LP_nonPeriodic_console 1000 lp w10) as [[[]|what] w11]
    eqn:E11; simpl; [|dead_end].
  assert (startup_returned a t hp lp (world s) w11) as Hret.
  { exists w1, w2, w3, w4, w5, w6, w7, w8, w9, w10. repeat split; assumption. }
  destruct (sdk_Start w11) as [[[]|what] w12].
  - simpl.
    match goal with
    | |- context [wait_for_stop polls ?m] =>
        destruct (wait_for_stop_run polls m) as [n E]; rewrite E
    end.
    simpl.
    exists (startup_calls a t hp lp ++ EvSleep 1 :: repeat (EvSleep 1) n).
    split; [rewrite <- ?app_assoc; simpl; reflexivity|].
    left. exists t, hp, lp, w11. eexists. split; [exact Hret | reflexivity].
  - simpl.
    exists (startup_calls a t hp lp ++ []).
    split; [rewrite <- ?app_assoc; simpl; reflexivity|].
    left. exists t, hp, lp, w11. eexists. split; [exact Hret | reflexivity].
Qed.

(** [main] of basic_teleop.cpp as a function of the command line. *)
Lemma main_by_command_line opts polls (s : Mach W) :
  BasicTeleop.main opts polls s
  = if accepted opts then
      (cout_lines (BasicTeleop.banner (final_args opts "" "" "")) ;;
       try_catch
         (BasicTeleop.setup_and_start (final_args opts "" "" "") polls)
         (fun what => log error what ;; ret (Exited 1))) s
    else (Returns (Exited 1), with_events s (map EvCout usage)).
Proof.
  unfold BasicTeleop.main. rewrite getopt_loop_final. unfold accepted.
  destruct (forallb handled opts); [|reflexivity].
  cbn [andb BasicTeleop.remoteSN BasicTeleop.localSN BasicTeleop.licCfgPath].
  unfold BasicTeleop.after_getopt, final_args.
  cbn [BasicTeleop.remoteSN BasicTeleop.localSN BasicTeleop.licCfgPath].
  destruct (empty (last_optarg "l" opts "")); cbn [orb negb andb];
    [apply usage_exit|].
  destruct (empty (last_optarg "r" opts "")); cbn [orb negb andb];
    [apply usage_exit|].
  destruct (empty (last_optarg "c" opts "")); cbn [orb negb andb];
    [apply usage_exit|].
  reflexivity.
Qed.

(** Every way through [main] of basic_teleop.cpp. *)
Lemma main_outcomes opts polls (s : Mach W) :
  exists evs : list Event,
    trace (snd (BasicTeleop.main opts polls s)) = trace s ++ evs
    /\ (In EvStart evs ->
        accepted opts = true
        /\ exists teleop hp lp w' rest,
             startup_returned (final_args opts "" "" "") teleop hp lp (world s) w'
             /\ evs = map EvCout (BasicTeleop.banner (final_args opts "" "" ""))
                      ++ startup_calls (final_args opts "" "" "") teleop hp lp
                      ++ rest).
Proof.
  rewrite main_by_command_line.
  destruct (accepted opts).
  - set (a := final_args opts "" "" "").
    unfold bind at 1. rewrite cout_lines_run. unfold try_catch.
    destruct (setup_and_start_outcomes a polls
                (with_events s (map EvCout (BasicTeleop.banner a))))
      as (evs & T & S).
    destruct (BasicTeleop.setup_and_start a polls
                (with_events s (map EvCout (BasicTeleop.banner a))))
      as [[r | what] s1]; simpl in T.
    + exists (map EvCout (BasicTeleop.banner a) ++ evs).
      split; [cbn [snd]; rewrite T, app_assoc; reflexivity|].
      intros Hin. split; [reflexivity|].
      apply in_app_or in Hin. destruct Hin as [Hin | Hin];
        [exfalso; exact (not_start_in_cout _ Hin)|].
      destruct S as [(t & hp & lp & w' & rest & R & E) | N]; [|tauto].
      exists t, hp, lp, w', rest. split; [exact R|]. rewrite E. reflexivity.
    + exists (map EvCout (BasicTeleop.banner a) ++ evs ++ [EvLog error what]).
      split; [simpl; rewrite T, <- !app_assoc; reflexivity|].
      intros Hin. split; [reflexivity|].
      apply in_app_or in Hin. destruct Hin as [Hin | Hin];
        [exfalso; exact (not_start_in_cout _ Hin)|].
      apply in_app_or in Hin. destruct Hin as [Hin | Hin];
        [|simpl in Hin; intuition discriminate].
      destruct S as [(t & hp & lp & w' & rest & R & E) | N]; [|tauto].
      exists t, hp, lp, w', (rest ++ [EvLog error what]).
      split; [exact R|]. rewrite E, <- app_assoc. reflexivity.
  - exists (map EvCout usage).
    split; [reflexivity|].
    intros Hin. exfalso. exact (not_start_in_cout _ Hin).
Qed.

End MainMore.

(* ===================================================================== *)
(** ** Set-up errors and unrecognised keys                                *)
(* ===================================================================== *)

Ltac run_setup :=
  rewrite main_by_command_line;
  match goal with H : accepted _ = true |- _ => rewrite H end;
  unfold bind at 1; rewrite cout_lines_run;
  unfold try_catch, BasicTeleop.setup_and_start, construct, enable, init,
    setLocalNullSpacePosture, setRemoteNullSpacePosture, setRemoteMaxWrench,
    log, bind, emit, sdk, ret, with_events;
  simpl;
  unfold final_args in *;
  cbn [BasicTeleop.localSN BasicTeleop.remoteSN BasicTeleop.licCfgPath] in *;
  repeat match goal with
         | H : _ = (_, _) |- _ => rewrite H; simpl
         end;
  repeat rewrite <- app_assoc; reflexivity.

(** C8.  (1) On an accepted command line, when one of the set-up calls
    throws (construction, [enable()], [init()], the two posture calls or
    the wrench limit, the calls before it having returned), [main] makes no
    further call: it logs [e.what()] as an error and returns 1.  (2) A
    console line whose first character is neither a toggle key nor [m] is
    answered with the invalid-command warning and then handled like any
    other line: the unchanged command is pushed and reported.  When that
    push returns, the pass through the loop body ends normally with the
    command and the stop flag as they were, and the loop goes on with the
    next line. *)
Theorem setup_errors_abort_and_bad_keys_do_not :
  forall (W : Type) (SDK : TeleopSDK W),
    (forall (opts : list GetoptResult) (polls : nat) (s : Mach W),
        accepted opts = true ->
        let a := final_args opts "" "" "" in
        let l := BasicTeleop.localSN a in
        let r := BasicTeleop.remoteSN a in
        let c := BasicTeleop.licCfgPath a in
        let shown := trace s ++ map EvCout (BasicTeleop.banner a) in
        (forall (what : string) (w1 : W),
            sdk_construct l r c (world s) = (Throws what, w1) ->
            BasicTeleop.main opts polls s
            = (Returns (Exited 1),
               mkMach w1 (g_stop_sched s)
                 (shown ++ [EvConstruct l r c; EvLog error what])))
        /\ (forall (t : Robot2RobotTeleop) (what : string) (w1 w2 : W),
              sdk_construct l r c (world s) = (Returns t, w1) ->
              sdk_enable t w1 = (Throws what, w2) ->
              BasicTeleop.main opts polls s
              = (Returns (Exited 1),
                 mkMach w2 (g_stop_sched s)
                   (shown ++ [EvConstruct l r c; EvCall t m_enable;
                              EvLog error what])))
        /\ (forall (t : Robot2RobotTeleop) (what : string) (w1 w2 w3 : W),
              sdk_construct l r c (world s) = (Returns t, w1) ->
              sdk_enable t w1 = (Returns tt, w2) ->
              sdk_init t w2 = (Throws what, w3) ->
              BasicTeleop.main opts polls s
              = (Returns (Exited 1),
                 mkMach w3 (g_stop_sched s)
                   (shown ++ [EvConstruct l r c; EvCall t m_enable;
                              EvCall t m_init; EvLog error what])))
        /\ (forall (t : Robot2RobotTeleop) (what : string) (w1 w2 w3 w4 : W),
              sdk_construct l r c (world s) = (Returns t, w1) ->
              sdk_enable t w1 = (Returns tt, w2) ->
              sdk_init t w2 = (Returns tt, w3) ->
              sdk_setLocalNullSpacePosture t w3 = (Throws what, w4) ->
              BasicTeleop.main opts polls s
              = (Returns (Exited 1),
                 mkMach w4 (g_stop_sched s)
                   (shown ++ [EvConstruct l r c; EvCall t m_enable;
                              EvCall t m_init;
                              EvCall t m_setLocalNullSpacePosture;
                              EvLog error what])))
        /\ (forall (t : Robot2RobotTeleop) (what : string) (w1 w2 w3 w4 w5 : W),
              sdk_construct l r c (world s) = (Returns t, w1) ->
              sdk_enable t w1 = (Returns tt, w2) ->
              sdk_init t w2 = (Returns tt, w3) ->
              sdk_setLocalNullSpacePosture t w3 = (Returns tt, w4) ->
              sdk_setRemoteNullSpacePosture t w4 = (Throws what, w5) ->
              BasicTeleop.main opts polls s
              = (Returns (Exited 1),
                 mkMach w5 (g_stop_sched s)
                   (shown ++ [EvConstruct l r c; EvCall t m_enable;
                              EvCall t m_init;
                              EvCall t m_setLocalNullSpacePosture;
                              EvCall t m_setRemoteNullSpacePosture;
                              EvLog error what])))
        /\ (forall (t : Robot2RobotTeleop) (what : string)
                   (w1 w2 w3 w4 w5 w6 : W),
              sdk_construct l r c (world s) = (Returns t, w1) ->
              sdk_enable t w1 = (Returns tt, w2) ->
              sdk_init t w2 = (Returns tt, w3) ->
              sdk_setLocalNullSpacePosture t w3 = (Returns tt, w4) ->
              sdk_setRemoteNullSpacePosture t w4 = (Returns tt, w5) ->
              sdk_setRemoteMaxWrench t w5 = (Throws what, w6) ->
              BasicTeleop.main opts polls s
              = (Returns (Exited 1),
                 mkMach w6 (g_stop_sched s)
                   (shown ++ [EvConstruct l r c; EvCall t m_enable;
                              EvCall t m_init;
                              EvCall t m_setLocalNullSpacePosture;
                              EvCall t m_setRemoteNullSpacePosture;
                              EvCall t m_setRemoteMaxWrench;
                              EvLog error what]))))
    /\ (forall (teleop : Robot2RobotTeleop) (cmd : AxisLockDefs)
               (userInput : string) (s : Mach W),
          ~ In (BasicTeleop.first_char userInput) toggle_keys ->
          BasicTeleop.first_char userInput <> "m"%char ->
          let reported :=
            [ EvLog warn BasicTeleop.invalid_command;
              EvCall teleop (m_setLocalAxisLockCmd cmd);
              EvLogAxis "X" (coord cmd) (at_ (trans_axis_lock_list_ cmd) 0);
              EvLogAxis "Y" (coord cmd) (at_ (trans_axis_lock_list_ cmd) 1);
              EvLogAxis "Z" (coord cmd) (at_ (trans_axis_lock_list_ cmd) 2);
              EvLogAxis "Rx" (coord cmd) (at_ (ori_axis_lock_list_ cmd) 0);
              EvLogAxis "Ry" (coord cmd) (at_ (ori_axis_lock_list_ cmd) 1);
              EvLogAxis "Rz" (coord cmd) (at_ (ori_axis_lock_list_ cmd) 2) ] in
          BasicTeleop.console_iteration teleop cmd userInput s
          = (setLocalAxisLockCmd teleop cmd ;;
             BasicTeleop.log_status cmd ;;
             ret cmd)
              (with_events s [EvLog warn BasicTeleop.invalid_command])
          /\ (forall w' : W,
                sdk_setLocalAxisLockCmd teleop cmd (world s) = (Returns tt, w') ->
                BasicTeleop.console_iteration teleop cmd userInput s
                = (Returns cmd, mkMach w' (g_stop_sched s) (trace s ++ reported))
                /\ (forall rest : list string,
                      g_stop_sched s = false ->
                      BasicTeleop.console_loop teleop cmd (userInput :: rest) s
                      = BasicTeleop.console_loop teleop cmd rest
                          (mkMach w' false (trace s ++ reported))))).
Proof.
  intros W SDK. split.
  - intros opts polls s Hacc a l r c shown. subst shown l r c a.
    repeat split; intros; run_setup.
  - intros teleop cmd userInput s Hin Hm reported.
    assert (BasicTeleop.console_iteration teleop cmd userInput s
            = (setLocalAxisLockCmd teleop cmd ;;
               BasicTeleop.log_status cmd ;;
               ret cmd)
                (with_events s [EvLog warn BasicTeleop.invalid_command])) as E.
    { unfold BasicTeleop.console_iteration. unfold bind at 1.
      rewrite (console_switch_default _ cmd s Hin Hm). reflexivity. }
    split; [exact E|].
    intros w' Hpush.
    assert (BasicTeleop.console_iteration teleop cmd userInput s
            = (Returns cmd, mkMach w' (g_stop_sched s) (trace s ++ reported))) as R.
    { rewrite E.
      unfold setLocalAxisLockCmd, BasicTeleop.log_status, bind, emit, sdk, ret,
        with_events; simpl.
      rewrite Hpush. simpl. repeat rewrite <- app_assoc. reflexivity. }
    split; [exact R|].
    intros rest Hstop.
    cbn [BasicTeleop.console_loop]. unfold bind at 1.
    unfold read_g_stop_sched. rewrite Hstop.
    unfold bind at 1. rewrite R, Hstop. reflexivity.
Qed.

Lemma setup_errors_abort_and_bad_keys_do_not_witness :
  BasicTeleop.main
    [("l"%char, "Rizon4s-123456"); ("r"%char, "Rizon4s-654321");
     ("c"%char, "licensCfg.json")] 3
    (TestSDK.boot TestSDK.enable_throws)
  = (Returns (Exited 1),
     mkMach (TestSDK.mkWorld 1 [] 0 true TestSDK.free_world) false
       (map EvCout
          (BasicTeleop.banner
             (BasicTeleop.mkArgs "Rizon4s-654321" "Rizon4s-123456" "licensCfg.json"))
        ++ [EvConstruct "Rizon4s-123456" "Rizon4s-654321" "licensCfg.json";
            EvCall 0%nat m_enable;
            EvLog error "enable failed"]))
  /\ BasicTeleop.main
       [("l"%char, "Rizon4s-123456"); ("r"%char, "Rizon4s-654321");
        ("c"%char, "licensCfg.json")] 3
       (CountdownSDK.boot 2)
     = (Returns (Exited 1),
        mkMach 0%nat false
          (map EvCout
             (BasicTeleop.banner
                (BasicTeleop.mkArgs "Rizon4s-654321" "Rizon4s-123456"
                                    "licensCfg.json"))
           ++ [EvConstruct "Rizon4s-123456" "Rizon4s-654321" "licensCfg.json";
               EvCall 0%nat m_enable;
               EvCall 0%nat m_init;
               EvLog error "sdk error"]))
  /\ BasicTeleop.console_loop 0%nat TestSDK.free_world ["k"; "x"]
       (TestSDK.boot TestSDK.healthy)
     = BasicTeleop.console_loop 0%nat TestSDK.free_world ["x"]
         (mkMach TestSDK.healthy false
            [ EvLog warn BasicTeleop.invalid_command;
              EvCall 0%nat (m_setLocalAxisLockCmd TestSDK.free_world);
              EvLogAxis "X" CD_WORLD false; EvLogAxis "Y" CD_WORLD false;
              EvLogAxis "Z" CD_WORLD false; EvLogAxis "Rx" CD_WORLD false;
              EvLogAxis "Ry" CD_WORLD false; EvLogAxis "Rz" CD_WORLD false ]).
Proof.
  split; [|split].
  - destruct (setup_errors_abort_and_bad_keys_do_not TestSDK.World TestSDK.sdk)
      as [Hsetup _].
    destruct (Hsetup
                [("l"%char, "Rizon4s-123456"); ("r"%char, "Rizon4s-654321");
                 ("c"%char, "licensCfg.json")]
                3%nat (TestSDK.boot TestSDK.enable_throws) eq_refl)
      as (_ & Henable & _).
    exact (Henable 0%nat "enable failed"
             (TestSDK.mkWorld 1 [] 0 true TestSDK.free_world)
             (TestSDK.mkWorld 1 [] 0 true TestSDK.free_world) eq_refl eq_refl).
  - destruct (setup_errors_abort_and_bad_keys_do_not nat CountdownSDK.sdk)
      as [Hsetup _].
    destruct (Hsetup
                [("l"%char, "Rizon4s-123456"); ("r"%char, "Rizon4s-654321");
                 ("c"%char, "licensCfg.json")]
                3%nat (CountdownSDK.boot 2) eq_refl)
      as (_ & _ & Hinit & _).
    exact (Hinit 0%nat "sdk error" 1%nat 0%nat 0%nat eq_refl eq_refl eq_refl).
  - destruct (setup_errors_abort_and_bad_keys_do_not TestSDK.World TestSDK.sdk)
      as [_ Hkeys].
    assert (~ In (BasicTeleop.first_char "k") toggle_keys) as Hin.
    { simpl. intros H. repeat (destruct H as [H | H]; [discriminate H|]). exact H. }
    assert (BasicTeleop.first_char "k" <> "m"%char) as Hm by discriminate.
    destruct (Hkeys 0%nat TestSDK.free_world "k" (TestSDK.boot TestSDK.healthy)
                Hin Hm) as [_ Hret].
    destruct (Hret TestSDK.healthy eq_refl) as [_ Hloop].
    exact (Hloop ["x"] eq_refl).
Defined.

(** X14: which command lines [main] of basic_teleop.cpp accepts.  The
    set-up starts exactly when every option value is [r], [l] or [c] and
    the last argument given for each of the three is not empty; it then
    works with those last arguments.  On every other command line, also
    one that names all three flags beside an unknown option, [main] prints
    the usage text and returns 1. *)
Theorem main_accepts_by_last_arguments :
  forall (W : Type) (SDK : TeleopSDK W) (opts : list GetoptResult) (polls : nat)
         (s : Mach W),
    BasicTeleop.main opts polls s
    = if accepted opts then
        (cout_lines (BasicTeleop.banner (final_args opts "" "" "")) ;;
         try_catch
           (BasicTeleop.setup_and_start (final_args opts "" "" "") polls)
           (fun what => log error what ;; ret (Exited 1))) s
      else (Returns (Exited 1), with_events s (map EvCout usage)).
Proof. intros W SDK opts polls s. apply main_by_command_line. Qed.

(** X15: [Start] comes after the whole set-up.  If [main] of
    basic_teleop.cpp calls [scheduler.Start()], the command line was
    accepted, and what the program did before is the banner followed by
    construction, [enable], [init], the two posture calls, the wrench
    limit, the scheduler, the three-second wait, the log line and, for each
    task, the priority query and the [AddTask] call with the priority it
    returned, in this order, each of these SDK calls having returned. *)
Theorem start_only_after_setup :
  forall (W : Type) (SDK : TeleopSDK W) (opts : list GetoptResult) (polls : nat)
         (s : Mach W),
  exists evs : list Event,
    trace (snd (BasicTeleop.main opts polls s)) = trace s ++ evs
    /\ (In EvStart evs ->
        accepted opts = true
        /\ exists (teleop : Robot2RobotTeleop) (hp lp : Z) (w' : W)
                  (rest : list Event),
             startup_returned (final_args opts "" "" "") teleop hp lp (world s) w'
             /\ evs = map EvCout (BasicTeleop.banner (final_args opts "" "" ""))
                      ++ startup_calls (final_args opts "" "" "") teleop hp lp
                      ++ rest).
Proof.
  intros W SDK opts polls s. apply main_outcomes.
Qed.

Section FreeSpaceMain.
Context {W : Type} {SDK : TeleopSDK W}.
Import BasicFreeSpaceMotionTeleop.

Lemma free_getopt_loop_cons opt optarg rest (a : Args)
    (k : Args -> M W MainResult) :
  getopt_loop ((opt, optarg) :: rest) a k =
  if Ascii.eqb opt "r" then
    log info ("Remote SN: " ++ optarg) ;;
    getopt_loop rest (mkArgs optarg (localSN a) (licCfgPath a)) k
  else if Ascii.eqb opt "l" then
    log info ("Local SN: " ++ optarg) ;;
    getopt_loop rest (mkArgs (remoteSN a) optarg (licCfgPath a)) k
  else if Ascii.eqb opt "c" then
    log info ("License config file: " ++ optarg) ;;
    getopt_loop rest (mkArgs (remoteSN a) (localSN a) optarg) k
  else (printHelp ;; ret (Exited 1)).
Proof. destruct opt as [[] [] [] [] [] [] [] []]; reflexivity. Qed.

(** On handled options the loop echoes each one and keeps the last
    argument of each flag. *)
Lemma free_getopt_loop_final opts :
  forall (a : Args) (k : Args -> M W MainResult) (s : Mach W),
    forallb handled opts = true ->
    getopt_loop opts a k s
    = k (mkArgs (last_optarg "r" opts (remoteSN a))
                (last_optarg "l" opts (localSN a))
                (last_optarg "c" opts (licCfgPath a)))
        (with_events s (map (fun o => EvLog info (echo_line o)) opts)).
Proof.
  induction opts as [|[opt optarg] rest IH]; intros a k s H.
  - simpl. rewrite with_events_nil. destruct a; reflexivity.
  - rewrite free_getopt_loop_cons.
    cbn [forallb] in H. apply andb_prop in H. destruct H as [Ho Hrest].
    unfold handled in Ho. cbn [fst] in Ho.
    cbn [last_optarg map]. unfold echo_line at 1. cbn [fst snd].
    destruct (Ascii.eqb_spec opt "r");
      [subst opt; unfold bind at 1, log, emit; rewrite (IH _ _ _ Hrest);
       unfold with_events; simpl; rewrite <- app_assoc; reflexivity|].
    destruct (Ascii.eqb_spec opt "l");
      [subst opt; unfold bind at 1, log, emit; rewrite (IH _ _ _ Hrest);
       unfold with_events; simpl; rewrite <- app_assoc; reflexivity|].
    destruct (Ascii.eqb_spec opt "c");
      [subst opt; unfold bind at 1, log, emit; rewrite (IH _ _ _ Hrest);
       unfold with_events; simpl; rewrite <- app_assoc; reflexivity|].
    discriminate Ho.
Qed.

Lemma log_is_not_run pre lvl msg : ~ ends_with_run (pre ++ [EvLog lvl msg]).
Proof.
  intros (pre' & t & E). apply app_inj_tail in E. destruct E as [_ E].
  discriminate E.
Qed.

Lemma printHelp_end (s : Mach W) :
  exists st s',
    (printHelp ;; ret (Exited 1)) s = (Returns (Exited st), s')
    /\ (st = 0 \/ st = 1)
    /\ g_stop_sched s' = g_stop_sched s
    /\ pushed (trace s') = pushed (trace s)
    /\ (st = 0 <-> ends_with_run (trace s')).
Proof.
  unfold printHelp, log, bind, emit, ret; simpl.
  eexists; eexists; split; [reflexivity|]; simpl.
  split; [right; reflexivity|]. split; [reflexivity|].
  split; [rewrite !pushed_app; simpl; rewrite !app_nil_r; reflexivity|].
  split; [discriminate|].
  intros H; exfalso; revert H; apply log_is_not_run.
Qed.

Ltac thrown :=
  simpl; eexists; eexists; split; [reflexivity|]; simpl;
  split; [right; reflexivity|]; split; [reflexivity|];
  split; [rewrite ?pushed_app; simpl; rewrite ?app_nil_r; reflexivity|];
  split; [discriminate|];
  let H := fresh "H" in intros H; exfalso; revert H; apply log_is_not_run.

Lemma after_getopt_outcomes (a : Args) (s : Mach W) :
  exists st s',
    after_getopt a s = (Returns (Exited st), s')
    /\ (st = 0 \/ st = 1)
    /\ g_stop_sched s' = g_stop_sched s
    /\ pushed (trace s') = pushed (trace s)
    /\ (st = 0 <-> ends_with_run (trace s')).
Proof.
  unfold after_getopt.
  destruct (empty (localSN a) || empty (remoteSN a) || empty (licCfgPath a));
    [apply printHelp_end|].
  unfold setup_and_run, construct, enable, init, setLocalNullSpacePosture,
    setRemoteNullSpacePosture, run, sleep_for, log.
  unfold try_catch, bind, emit, sdk, ret. simpl.
  destruct (sdk_construct (localSN a) (remoteSN a) (licCfgPath a) (world s))
    as [[t|what] w1]; simpl; [|thrown].
  destruct (sdk_enable t w1) as [[[]|what] w2]; simpl; [|thrown].
  destruct (sdk_init t w2) as [[[]|what] w3]; simpl; [|thrown].
  destruct (sdk_setLocalNullSpacePosture t w3) as [[[]|what] w4]; simpl; [|thrown].
  destruct (sdk_setRemoteNullSpacePosture t w4) as [[[]|what] w5]; simpl; [|thrown].
  destruct (sdk_run t w5) as [[[]|what] w6]; simpl; [|thrown].
  eexists; eexists; split; [reflexivity|]; simpl.
  split; [left; reflexivity|]. split; [reflexivity|].
  split; [rewrite ?pushed_app; simpl; rewrite ?app_nil_r; reflexivity|].
  split; [|reflexivity].
  intros _. eexists; eexists; reflexivity.
Qed.

Lemma free_main_outcomes opts :
  forall (a : Args) (s : Mach W),
  exists st s',
    getopt_loop opts a after_getopt s = (Returns (Exited st), s')
    /\ (st = 0 \/ st = 1)
    /\ g_stop_sched s' = g_stop_sched s
    /\ pushed (trace s') = pushed (trace s)
    /\ (st = 0 <-> ends_with_run (trace s')).
Proof.
  induction opts as [|[opt optarg] rest IH]; intros a s.
  - apply after_getopt_outcomes.
  - rewrite free_getopt_loop_cons.
    assert (forall msg a',
               exists st s',
                 (log info msg ;; getopt_loop rest a' after_getopt) s
                 = (Returns (Exited st), s')
                 /\ (st = 0 \/ st = 1)
                 /\ g_stop_sched s' = g_stop_sched s
                 /\ pushed (trace s') = pushed (trace s)
                 /\ (st = 0 <-> ends_with_run (trace s'))) as Step.
    { intros msg a'. unfold bind, log, emit.
      destruct (IH a' (mkMach (world s) (g_stop_sched s)
                              (trace s ++ [EvLog info msg])))
        as (st & s' & E & V & F & P & R).
      exists st, s'. split; [exact E|]. split; [exact V|]. split; [exact F|].
      split; [|exact R].
      rewrite P. simpl. rewrite pushed_app. simpl. apply app_nil_r. }
    destruct (Ascii.eqb opt "r"); [apply Step|].
    destruct (Ascii.eqb opt "l"); [apply Step|].
    destruct (Ascii.eqb opt "c"); [apply Step|].
    apply printHelp_end.
Qed.

End FreeSpaceMain.

(** X17: the option loop of basic_free_space_motion_teleop.cpp.  On a
    command line of handled options only, [main] first logs one line per
    option, in command-line order, and then goes on with the last argument
    given for each flag. *)
Theorem free_space_main_echoes_options :
  forall (W : Type) (SDK : TeleopSDK W) (opts : list GetoptResult) (s : Mach W),
    forallb handled opts = true ->
    BasicFreeSpaceMotionTeleop.main opts s
    = BasicFreeSpaceMotionTeleop.after_getopt
        (BasicFreeSpaceMotionTeleop.mkArgs
           (last_optarg "r" opts "") (last_optarg "l" opts "")
           (last_optarg "c" opts ""))
        (with_events s (map (fun o => EvLog info (echo_line o)) opts)).
Proof.
  intros W SDK opts s H. unfold BasicFreeSpaceMotionTeleop.main.
  rewrite (free_getopt_loop_final opts _ _ s H). reflexivity.
Qed.

Lemma free_space_main_echoes_options_witness :
  BasicFreeSpaceMotionTeleop.main
    [("l"%char, "A"); ("l"%char, "B"); ("r"%char, "C")] SteadySDK.boot
  = BasicFreeSpaceMotionTeleop.after_getopt
      (BasicFreeSpaceMotionTeleop.mkArgs
         (last_optarg "r" [("l"%char, "A"); ("l"%char, "B"); ("r"%char, "C")] "")
         (last_optarg "l" [("l"%char, "A"); ("l"%char, "B"); ("r"%char, "C")] "")
         (last_optarg "c" [("l"%char, "A"); ("l"%char, "B"); ("r"%char, "C")] ""))
      (with_events SteadySDK.boot
         (map (fun o => EvLog info (echo_line o))
              [("l"%char, "A"); ("l"%char, "B"); ("r"%char, "C")])).
Proof.
  apply (free_space_main_echoes_options unit SteadySDK.sdk
           [("l"%char, "A"); ("l"%char, "B"); ("r"%char, "C")] SteadySDK.boot).
  reflexivity.
Defined.

(** X18: how [main] of basic_free_space_motion_teleop.cpp ends.  No
    exception leaves [main]; it returns 0 or 1, and it returns 0 exactly
    when its last action was the [run] call, which then returned.  It never
    writes the stop flag and never pushes an axis-lock command:
    [testAixsLock] is not called. *)
Theorem free_space_main_exit_status :
  forall (W : Type) (SDK : TeleopSDK W) (opts : list GetoptResult) (s : Mach W),
  exists (status : Z) (s' : Mach W),
    BasicFreeSpaceMotionTeleop.main opts s = (Returns (Exited status), s')
    /\ (status = 0 \/ status = 1)
    /\ g_stop_sched s' = g_stop_sched s
    /\ pushed (trace s') = pushed (trace s)
    /\ (status = 0 <->
        exists (pre : list Event) (teleop : Robot2RobotTeleop),
          trace s' = pre ++ [EvCall teleop m_run]).
Proof.
  intros W SDK opts s. apply free_main_outcomes.
Qed.

(* ===================================================================== *)
(** ** The dual-arm program                                               *)
(* ===================================================================== *)

Lemma cart_main_with_its_option_table_witness :
  Forall (fun o : GetoptResult => In (fst o) ["l"; "r"; "c"; "?"]%char)
         [("l"%char, "L1"); ("r"%char, "R1"); ("c"%char, "lic.json")]
  /\ BasicCartTeleop.main
       [("l"%char, "L1"); ("r"%char, "R1"); ("c"%char, "lic.json")] 2
       (TestSDK.boot TestSDK.healthy)
     = (Returns (Exited 1),
        with_events (TestSDK.boot TestSDK.healthy) (map EvCout usage)).
Proof.
  assert (Forall (fun o : GetoptResult => In (fst o) ["l"; "r"; "c"; "?"]%char)
                 [("l"%char, "L1"); ("r"%char, "R1"); ("c"%char, "lic.json")]) as H.
  { repeat constructor; simpl; tauto. }
  split; [exact H|].
  exact (cart_main_with_its_option_table TestSDK.World TestSDK.sdk
           [("l"%char, "L1"); ("r"%char, "R1"); ("c"%char, "lic.json")] 2%nat
           (TestSDK.boot TestSDK.healthy) H).
Defined.
